(** * PrOMMiS UKy flowsheet: SX/precipitator translator and custom vessel costing

    A shallow embedding of

      - [UKy_flowsheet/Translators/translator_SX_precipitator.py]
        (class [TranslatorDataLeachingSX]: [build] and [initialize_build]);
      - [prommis/uky/costing/custom_costing_example.py]
        (class [CustomCostingData]: the unit registration in the class body
        and [cost_custom_vessel]).

    Both files build Pyomo components.  The part of Pyomo they rely on is
    modelled in [Module Pyomo]: unit-bearing expression trees, [value],
    [pyunits.convert] and the unit registry.  Python floats are modelled by
    real numbers. *)

From Stdlib Require Import Reals Lra Lia ZArith QArith Qreals.
From Stdlib Require Import String Ascii List DecimalString.
Import ListNotations.

(* ================================================================== *)
(** * The Pyomo substrate *)
(* ================================================================== *)

Module Pyomo.

(** ** Exceptions and fallible results *)

Inductive exn : Type :=
| PyException (msg : string)           (* the builtin class [Exception] *)
| KeyError (key : string)
| AttributeError (name : string)
| ValueError (msg : string)
| ZeroDivisionError
| RuntimeError (msg : string)
| InconsistentUnitsError
| InitializationError (msg : string)   (* idaes.core.util.exceptions *)
| ExternalError (msg : string).        (* raised inside a collaborator *)

Inductive result (A : Type) : Type :=
| Ok (a : A)
| Raise (e : exn).
Arguments Ok {A} a.
Arguments Raise {A} e.

Definition rbind {A B} (r : result A) (k : A -> result B) : result B :=
  match r with
  | Ok a => k a
  | Raise e => Raise e
  end.

Declare Scope res_scope.
Delimit Scope res_scope with res.
Notation "x <- r ;; k" := (rbind r (fun x => k))
  (at level 61, r at next level, right associativity) : res_scope.

(** ** Stateful fallible computations

    A statement sequence that mutates a block or calls collaborators: the
    state is threaded through, an exception stops the sequence and keeps
    the state reached. *)
Definition SE (S A : Type) : Type := S -> result A * S.

Definition ret {S A} (a : A) : SE S A := fun s => (Ok a, s).
Definition raise {S A} (e : exn) : SE S A := fun s => (Raise e, s).
Definition lift {S A} (r : result A) : SE S A := fun s => (r, s).
Definition bind {S A B} (m : SE S A) (k : A -> SE S B) : SE S B :=
  fun s => match m s with
           | (Ok a, s') => k a s'
           | (Raise e, s') => (Raise e, s')
           end.

Notation "m >> k" := (bind m (fun _ => k))
  (at level 62, right associativity).
Notation "x <~ m ; k" := (bind m (fun x => k))
  (at level 62, m at next level, right associativity).

(** Construction of an indexed component: the rule runs once per index,
    in the order of the index set; the first failure aborts. *)
Fixpoint construct_indexed {A} (rule : Z -> result A) (idx : list Z)
  : result (list (Z * A)) :=
  match idx with
  | [] => Ok []
  | t :: rest =>
      rbind (rule t) (fun a =>
      rbind (construct_indexed rule rest) (fun l => Ok ((t, a) :: l)))
  end.

Fixpoint getitem {A} (name : string) (l : list (Z * A)) (t : Z) : result A :=
  match l with
  | [] => Raise (KeyError name)
  | (t', a) :: rest => if Z.eqb t t' then Ok a else getitem name rest t
  end.

(** ** Dimensions and units (the part of pint that is used) *)

Record dim : Type := mkDim {
  d_length : Q; d_mass : Q; d_time : Q; d_amount : Q; d_currency : Q }.

Definition dim_zero : dim := mkDim 0 0 0 0 0.
Definition dim_length : dim := mkDim 1 0 0 0 0.
Definition dim_mass : dim := mkDim 0 1 0 0 0.
Definition dim_time : dim := mkDim 0 0 1 0 0.
Definition dim_amount : dim := mkDim 0 0 0 1 0.
Definition dim_currency : dim := mkDim 0 0 0 0 1.

Definition dim_map2 (f : Q -> Q -> Q) (a b : dim) : dim :=
  mkDim (f (d_length a) (d_length b)) (f (d_mass a) (d_mass b))
        (f (d_time a) (d_time b)) (f (d_amount a) (d_amount b))
        (f (d_currency a) (d_currency b)).

Definition dim_mul : dim -> dim -> dim := dim_map2 Qplus.
Definition dim_div : dim -> dim -> dim := dim_map2 Qminus.
Definition dim_pow (a : dim) (q : Q) : dim :=
  mkDim (d_length a * q) (d_mass a * q) (d_time a * q) (d_amount a * q)
        (d_currency a * q).

Definition dim_eqb (a b : dim) : bool :=
  Qeq_bool (d_length a) (d_length b) && Qeq_bool (d_mass a) (d_mass b)
  && Qeq_bool (d_time a) (d_time b) && Qeq_bool (d_amount a) (d_amount b)
  && Qeq_bool (d_currency a) (d_currency b).

Local Open Scope R_scope.

(** Units: the factor to the base units and its dimensionality. *)
Record units : Type := mkUnit { scale : R; dims : dim }.

Definition u_mul (a b : units) : units :=
  mkUnit (scale a * scale b) (dim_mul (dims a) (dims b)).
Definition u_div (a b : units) : units :=
  mkUnit (scale a / scale b) (dim_div (dims a) (dims b)).
Definition u_pow (a : units) (q : Q) : units :=
  mkUnit (Rpower (scale a) (Q2R q)) (dim_pow (dims a) q).
Definition dimensionless : units := mkUnit 1 dim_zero.

(** Units of pint's default registry that the two files name. *)
Definition u_m : units := mkUnit 1 dim_length.
Definition u_kg : units := mkUnit 1 dim_mass.
Definition u_s : units := mkUnit 1 dim_time.
Definition u_mol : units := mkUnit 1 dim_amount.
Definition u_L : units := mkUnit (1 / 1000) (mkDim 3 0 0 0 0).
Definition u_gal : units := mkUnit (3785411784 / 1000000000000) (mkDim 3 0 0 0 0).
Definition u_year : units := mkUnit 31557600 dim_time.

(** ** Expressions

    The points of the time set are integers here; a steady-state flowsheet
    has the single point 0. *)

Inductive var : Type :=
| StateVar (port : string) (t : Z) (name : string) (j : option string)
    (* blk.<port>[t].<name>[j] *)
| BlockVar (name : string).
    (* blk.<name> *)

Inductive expr : Type :=
| Num (r : R)
| UnitE (u : units)
| VarE (x : var) (u : units)        (* a Var together with its declared units *)
| Mul (a b : expr)
| Div (a b : expr)
| Pow (a : expr) (q : Q)
| Named (name : string) (t : Z) (body : expr).
    (* reference to the data of a named Expression component *)

Inductive constraint : Type :=
| EqC (lhs rhs : expr).

Fixpoint get_units (e : expr) : units :=
  match e with
  | Num _ => dimensionless
  | UnitE u => u
  | VarE _ u => u
  | Mul a b => u_mul (get_units a) (get_units b)
  | Div a b => u_div (get_units a) (get_units b)
  | Pow a q => u_pow (get_units a) q
  | Named _ _ body => get_units body
  end.

(** The variables an expression still depends on. *)
Fixpoint variables (e : expr) : list var :=
  match e with
  | Num _ | UnitE _ => []
  | VarE x _ => [x]
  | Mul a b | Div a b => variables a ++ variables b
  | Pow a _ => variables a
  | Named _ _ body => variables body
  end.

(** Current numeric values of the variables ([None]: no value yet). *)
Definition valuation : Type := var -> option R.

Definition is_integer (q : Q) : bool := Z.eqb (Z.rem (Qnum q) (Zpos (Qden q))) 0.

(** Python's float [x ** q].  A negative base with a fractional exponent
    gives a complex number in Python; Pyomo has no use for it and the model
    reports it as a failure. *)
Definition pow_value (x : R) (q : Q) : result R :=
  if Rlt_dec 0 x then Ok (Rpower x (Q2R q))
  else if Rlt_dec x 0 then
    if is_integer q then Ok (powerRZ x (Qnum q / Zpos (Qden q)))
    else Raise (ValueError "complex result")
  else
    match Qcompare q 0 with
    | Gt => Ok 0
    | Eq => Ok 1
    | Lt => Raise ZeroDivisionError
    end.

(** Python's float [x / y].  Like the products and powers of [value], the
    quotient is taken over the reals: rounding, overflow to [inf],
    underflow to zero and [nan] are outside the model. *)
Definition div_value (x y : R) : result R :=
  if Req_EM_T y 0 then Raise ZeroDivisionError else Ok (x / y).

Definition no_value : exn :=
  ValueError "No value for uninitialized NumericValue object".

(** [pyomo.environ.value]: a unit symbol evaluates to 1, an unset Var fails. *)
Fixpoint value (st : valuation) (e : expr) : result R :=
  match e with
  | Num r => Ok r
  | UnitE _ => Ok 1
  | VarE x _ =>
      match st x with
      | Some r => Ok r
      | None => Raise no_value
      end
  | Mul a b =>
      rbind (value st a) (fun x => rbind (value st b) (fun y => Ok (x * y)))
  | Div a b =>
      rbind (value st a) (fun x => rbind (value st b) (fun y => div_value x y))
  | Pow a q => rbind (value st a) (fun x => pow_value x q)
  | Named _ _ body => value st body
  end.

(** [math.log10] *)
Definition log10 (x : R) : result R :=
  if Rlt_dec 0 x then Ok (ln x / ln 10) else Raise (ValueError "math domain error").

Definition conversion_factor (from to : units) : R := scale from / scale to.

(** [pyunits.convert(src, to_units)]: the source times the ratio of the two
    base factors, carrying [to_units / src_units].  (Pyomo returns [src]
    itself when both units are the same pint unit; the factor is 1 then, so
    the value is the same.) *)
Definition convert (src : expr) (to_units : units) : result expr :=
  let su := get_units src in
  if dim_eqb (dims su) (dims to_units)
  then Ok (Mul (Div (Mul (Num (conversion_factor su to_units)) (UnitE to_units))
                    (UnitE su))
               src)
  else Raise InconsistentUnitsError.

(** ** The registry of unit definitions *)

Inductive unit_def : Type :=
| BaseDef (d : dim)                        (* "name = [dimension]" *)
| ScaledDef (factor : Q) (ref : string).   (* "name = factor * ref" *)

Definition registry : Type := list (string * unit_def).

Fixpoint lookup_def (name : string) (reg : registry) : option unit_def :=
  match reg with
  | [] => None
  | (n, d) :: rest => if String.eqb name n then Some d else lookup_def name rest
  end.

(** Definitions are resolved when a name is used, through the chain of
    references; the fuel bounds the length of that chain. *)
Fixpoint resolve (fuel : nat) (reg : registry) (name : string) : option units :=
  match fuel with
  | O => None
  | S fuel' =>
      match lookup_def name reg with
      | None => None
      | Some (BaseDef d) => Some (mkUnit 1 d)
      | Some (ScaledDef q ref) =>
          match resolve fuel' reg ref with
          | Some u => Some (mkUnit (Q2R q * scale u) (dims u))
          | None => None
          end
      end
  end.

(** [getattr(pyunits, name)]: the name itself or, failing that, the name
    read with the prefix [M] (mega). *)
Definition getattr_units (reg : registry) (name : string) : result units :=
  match resolve (S (length reg)) reg name with
  | Some u => Ok u
  | None =>
      match name with
      | String "M"%char rest =>
          match resolve (S (length reg)) reg rest with
          | Some u => Ok (mkUnit (1000000 * scale u) (dims u))
          | None => Raise (AttributeError name)
          end
      | _ => Raise (AttributeError name)
      end
  end.

(** [pyunits.load_definitions_from_strings]: later definitions shadow
    earlier ones. *)
Definition load_definitions_from_strings
    (defs : list (string * unit_def)) (reg : registry) : registry :=
  rev defs ++ reg.

Definition definitions_of (name : string) (reg : registry) : list unit_def :=
  map snd (filter (fun p => String.eqb name (fst p)) reg).

End Pyomo.

(* ================================================================== *)
(** * Bounding decimal logarithms by integer arithmetic *)
(* ================================================================== *)

(** [c ^ n] is enclosed between numbers [m * 10 ^ e] whose mantissa stays
    short: every product is cut back to about fifteen digits, rounding down
    for a lower and up for an upper bound. *)
Module Log10.







End Log10.

(* ================================================================== *)
(** * translator_SX_precipitator.py: the constraint builder *)
(* ================================================================== *)

Module Translator.
Import Pyomo.
Local Open Scope R_scope.
Local Open Scope string_scope.
Local Open Scope res_scope.

(** Units in which the two property packages declare their state
    variables.  The packages are outside this repository. *)
Record property_units : Type := {
  in_flow_vol_units : units;
  in_flow_mass_units : units;
  out_flow_mass_units : units;
  out_log10_molality_units : units }.

(** The state variables the translator names. *)
Definition var_in_flow_vol (t : Z) : var :=
  StateVar "properties_in" t "flow_vol" None.
Definition var_in_flow_mass (t : Z) (j : string) : var :=
  StateVar "properties_in" t "flow_mass" (Some j).
Definition var_out_flow_mass (t : Z) : var :=
  StateVar "properties_out" t "flow_mass" None.
Definition var_out_log10_molality_comp (t : Z) (j : string) : var :=
  StateVar "properties_out" t "log10_molality_comp" (Some j).

(** Factors by which [build] converts the upstream flows to L/s and kg/s. *)
Definition vol_factor (pu : property_units) : R :=
  conversion_factor (in_flow_vol_units pu) (u_div u_L u_s).
Definition mass_factor (pu : property_units) : R :=
  conversion_factor (in_flow_mass_units pu) (u_div u_kg u_s).

Section Build.

Variable pu : property_units.
(** The values the variables hold while [build] runs. *)
Variable st : valuation.

Definition properties_in_flow_vol (t : Z) : expr :=
  VarE (var_in_flow_vol t) (in_flow_vol_units pu).
Definition properties_in_flow_mass (t : Z) (j : string) : expr :=
  VarE (var_in_flow_mass t j) (in_flow_mass_units pu).
Definition properties_out_flow_mass (t : Z) : expr :=
  VarE (var_out_flow_mass t) (out_flow_mass_units pu).
Definition properties_out_log10_molality_comp (t : Z) (j : string) : expr :=
  VarE (var_out_log10_molality_comp t j) (out_log10_molality_units pu).

Definition mw_al : expr := Div (Mul (Num 0.02698154) (UnitE u_kg)) (UnitE u_mol).
Definition mw_ca : expr := Div (Mul (Num 0.03996259) (UnitE u_kg)) (UnitE u_mol).
Definition mw_fe : expr := Div (Mul (Num 0.05593494) (UnitE u_kg)) (UnitE u_mol).

(** [blk.<name>[t]] for a named Expression component. *)
Definition expression_ref (name : string) (tbl : list (Z * expr)) (t : Z)
  : result expr :=
  body <- getitem name tbl t ;;
  Ok (Named name t body).

Definition rule_solvent_mass_flow (t : Z) : result expr :=
  flow_vol <- convert (properties_in_flow_vol t) (u_div u_L u_s) ;;
  Ok (Mul flow_vol (Div (Mul (Num 1.840) (UnitE u_kg)) (UnitE u_L))).

Definition rule_eq_flow_mass_rule (smf : list (Z * expr)) (t : Z)
  : result constraint :=
  s <- expression_ref "solvent_mass_flow" smf t ;;
  Ok (EqC (properties_out_flow_mass t) s).

(** The three molar-flow expressions differ in the species and its
    molecular weight only, the three molality constraints in the ion and
    the expression they read. *)
Definition rule_molar_flow (j : string) (mw : expr) (t : Z) : result expr :=
  flow_mass <- convert (properties_in_flow_mass t j) (u_div u_kg u_s) ;;
  Ok (Div flow_mass mw).

Definition rule_eq_molality (ion flow_name : string)
    (mf smf : list (Z * expr)) (t : Z) : result constraint :=
  a <- expression_ref flow_name mf t ;;
  s <- expression_ref "solvent_mass_flow" smf t ;;
  v <- value st (Div a s) ;;
  target <- log10 v ;;
  Ok (EqC (properties_out_log10_molality_comp t ion) (Num target)).

Definition rule_aluminum_molar_flow := rule_molar_flow "Al" mw_al.
Definition rule_eq_aluminum_molality :=
  rule_eq_molality "Al^3+" "aluminum_molar_flow".
Definition rule_calcium_molar_flow := rule_molar_flow "Ca" mw_ca.
Definition rule_eq_calcium_molality :=
  rule_eq_molality "Ca^2+" "calcium_molar_flow".
Definition rule_iron_molar_flow := rule_molar_flow "Fe" mw_fe.
Definition rule_eq_iron_molality :=
  rule_eq_molality "Fe^3+" "iron_molar_flow".

Definition pH : Q := 25 # 10.
Definition Kw : R := 1e-14.

Definition rule_eq_hydrogen_molality (t : Z) : result constraint :=
  h <- pow_value 10 (- pH) ;;
  target <- log10 h ;;
  Ok (EqC (properties_out_log10_molality_comp t "H^+") (Num target)).

Definition rule_eq_hydroxide_molality (t : Z) : result constraint :=
  h <- pow_value 10 (- pH) ;;
  oh <- div_value Kw h ;;
  target <- log10 oh ;;
  Ok (EqC (properties_out_log10_molality_comp t "OH^-") (Num target)).

(** The components [build] leaves on the block, under the source's names. *)
Record block : Type := {
  solvent_mass_flow : list (Z * expr);
  eq_flow_mass_rule : list (Z * constraint);
  aluminum_molar_flow : list (Z * expr);
  eq_aluminum_molality : list (Z * constraint);
  calcium_molar_flow : list (Z * expr);
  eq_calcium_molality : list (Z * constraint);
  iron_molar_flow : list (Z * expr);
  eq_iron_molality : list (Z * constraint);
  eq_hydrogen_molality : list (Z * constraint);
  eq_hydroxide_molality : list (Z * constraint) }.

(** [build], over the time set of the flowsheet.  Each decorator constructs
    its component at once, so a rule that raises aborts the build there. *)
Definition build (time : list Z) : result block :=
  smf <- construct_indexed rule_solvent_mass_flow time ;;
  efm <- construct_indexed (rule_eq_flow_mass_rule smf) time ;;
  al <- construct_indexed rule_aluminum_molar_flow time ;;
  eal <- construct_indexed (rule_eq_aluminum_molality al smf) time ;;
  ca <- construct_indexed rule_calcium_molar_flow time ;;
  eca <- construct_indexed (rule_eq_calcium_molality ca smf) time ;;
  fe <- construct_indexed rule_iron_molar_flow time ;;
  efe <- construct_indexed (rule_eq_iron_molality fe smf) time ;;
  eh <- construct_indexed rule_eq_hydrogen_molality time ;;
  eoh <- construct_indexed rule_eq_hydroxide_molality time ;;
  Ok {| solvent_mass_flow := smf; eq_flow_mass_rule := efm;
        aluminum_molar_flow := al; eq_aluminum_molality := eal;
        calcium_molar_flow := ca; eq_calcium_molality := eca;
        iron_molar_flow := fe; eq_iron_molality := efe;
        eq_hydrogen_molality := eh; eq_hydroxide_molality := eoh |}.

End Build.

(* ------------------------------------------------------------------ *)
(** ** [initialize_build] *)

(** What the solver reports, and [pyomo.environ.check_optimal_termination]. *)
Inductive SolverStatus : Type :=
| ok | warning | error | aborted | unknown.

Inductive TerminationCondition : Type :=
| optimal | locallyOptimal | globallyOptimal
| maxIterations | maxTimeLimit | infeasible | unbounded | other.

Record solver_results : Type := {
  status : SolverStatus;
  termination_condition : TerminationCondition }.

Definition check_optimal_termination (res : solver_results) : bool :=
  match status res, termination_condition res with
  | ok, (optimal | locallyOptimal | globallyOptimal) => true
  | _, _ => false
  end.

(** The token [properties_in.initialize(hold_state=True)] hands back: for
    each state variable, whether it was fixed before the hold. *)
Definition flags : Type := list (string * bool).

Inductive event : Type :=
| EvGetSolver
| EvInitializeIn (hold_state : bool)
| EvInitializeOut
| EvSolve
| EvReleaseState (f : flags)
| EvLogInfo (res : solver_results).

(** The state [initialize_build] acts on: which upstream state variables
    are fixed, and the calls made to the collaborators so far. *)
Record world : Type := {
  fixed_in : flags;
  trace : list event }.

(** How the collaborators answer during one call.  [release_state] and the
    loggers are taken not to fail. *)
Record collaborators : Type := {
  get_solver_outcome : option exn;
  properties_in_initialize_outcome : option exn;
  properties_out_initialize_outcome : option exn;
  degrees_of_freedom : Z;      (* of the block, once both state blocks are initialized *)
  solve_outcome : result solver_results }.

Definition W : Type -> Type := SE world.

Definition emit (ev : event) : W Datatypes.unit :=
  fun w => (Ok tt, {| fixed_in := fixed_in w; trace := trace w ++ [ev] |}).
Definition outcome (o : option exn) : W Datatypes.unit :=
  match o with
  | None => ret tt
  | Some e => raise e
  end.

Section Initialize.

Variable name : string.       (* self.name *)
Variable ext : collaborators.

Definition get_solver : W Datatypes.unit :=
  emit EvGetSolver >> outcome (get_solver_outcome ext).

(** [self.properties_in.initialize(..., hold_state=True)] *)
Definition properties_in_initialize : W flags :=
  emit (EvInitializeIn true) >>
  outcome (properties_in_initialize_outcome ext) >>
  fun w => (Ok (fixed_in w),
            {| fixed_in := map (fun p => (fst p, true)) (fixed_in w);
               trace := trace w |}).

(** [self.properties_out.initialize(...)] *)
Definition properties_out_initialize : W Datatypes.unit :=
  emit EvInitializeOut >> outcome (properties_out_initialize_outcome ext).

Definition opt_solve : W solver_results :=
  emit EvSolve >>
  match solve_outcome ext with
  | Ok res => ret res
  | Raise e => raise e
  end.

(** [self.properties_in.release_state(flags=flags, ...)] *)
Definition release_state (f : flags) : W Datatypes.unit :=
  emit (EvReleaseState f) >>
  fun w => (Ok tt, {| fixed_in := f; trace := trace w |}).

(** Python's [str] of an integer. *)
Definition str_of_int (z : Z) : string := NilZero.string_of_int (Z.to_int z).

Definition dof_message : string :=
  name ++ " degrees of freedom were not 0 at the beginning "
       ++ "of initialization. DoF = " ++ str_of_int (degrees_of_freedom ext).

Definition init_failed_message : string :=
  name ++ " failed to initialize successfully. Please check "
       ++ "the output logs for more information.".

Definition initialize_build : W Datatypes.unit :=
  get_solver >>
  f <~ properties_in_initialize ;
  properties_out_initialize >>
  (if negb (Z.eqb (degrees_of_freedom ext) 0)
   then raise (PyException dof_message)
   else ret tt) >>
  res <~ opt_solve ;
  release_state f >>
  emit (EvLogInfo res) >>
  if negb (check_optimal_termination res)
  then raise (InitializationError init_failed_message)
  else ret tt.

End Initialize.

(** Whether a trace holds a call of the solver, of [release_state]. *)
Definition is_solve (ev : event) : bool :=
  match ev with EvSolve => true | _ => false end.
Definition is_release (ev : event) : bool :=
  match ev with EvReleaseState _ => true | _ => false end.
Definition all_fixed (f : flags) : bool := forallb snd f.

(** The calls of a run in which nothing fails, in the order of the source. *)
Definition full_sequence (f : flags) (res : solver_results) : list event :=
  [EvGetSolver; EvInitializeIn true; EvInitializeOut; EvSolve;
   EvReleaseState f; EvLogInfo res].

End Translator.

(* ================================================================== *)
(** * custom_costing_example.py *)
(* ================================================================== *)

Module Costing.
Import Pyomo.
Local Open Scope R_scope.
Local Open Scope string_scope.
Local Open Scope list_scope.
Local Open Scope res_scope.

(** The class body of [CustomCostingData] runs when the class is defined:
    it registers the custom currency unit. *)
Definition CustomCostingData_class_body (reg : registry) : registry :=
  load_definitions_from_strings
    [("USD_custom", ScaledDef (500 # 700) "USD_CE500")] reg.

(** ** The costing block *)

Inductive domain : Type := Reals | NonNegativeReals.

Inductive component : Type :=
| CParam (initialize : R) (mutable : bool)
| CVar (initialize : R) (u : units) (dom : domain) (bounds : option R * option R)
| CConstraint (c : constraint)
| CUnbuilt.
    (* a Constraint declared on the block whose rule raised while it was
       constructed: it holds no equation *)

(** Components in the order of their declaration. *)
Definition block : Type := list (string * component).

Definition declared (name : string) (blk : block) : bool :=
  existsb (fun p => String.eqb name (fst p)) blk.

Fixpoint get_component (name : string) (blk : block) : option component :=
  match blk with
  | [] => None
  | (n, c) :: rest => if String.eqb name n then Some c else get_component name rest
  end.

Definition is_var (c : component) : bool :=
  match c with CVar _ _ _ _ => true | _ => false end.

(** The names of the Vars on a block. *)
Definition variables_built (blk : block) : list string :=
  map fst (filter (fun p => is_var (snd p)) blk).

(** [blk.del_component(name)] *)
Definition del_component (name : string) (blk : block) : block :=
  filter (fun p => negb (String.eqb name (fst p))) blk.

(** The block a component is about to be declared on under [name]:
    [Block.__setattr__] removes a component that has the name already
    (with a warning) before it adds the new one at the end. *)
Definition make_room (name : string) (blk : block) : block :=
  if declared name blk then del_component name blk else blk.

(** [blk.<name> = component] *)
Definition add_component (name : string) (c : component) : SE block Datatypes.unit :=
  fun blk => (Ok tt, make_room name blk ++ [(name, c)]).

(** [@blk.Constraint()] on a rule: the Constraint is declared on the block
    first; the block being under construction, it is constructed at once,
    which runs the rule.  When the rule raises, the exception goes on to
    the caller and the Constraint stays declared, without an equation. *)
Definition Constraint (name : string) (rule : result constraint)
  : SE block Datatypes.unit :=
  fun blk =>
    match rule with
    | Ok c => (Ok tt, make_room name blk ++ [(name, CConstraint c)])
    | Raise e => (Raise e, make_room name blk ++ [(name, CUnbuilt)])
    end.

(** ** [cost_custom_vessel] *)

Definition material_factor_dict : list (string * R) :=
  [("carbonsteel", 1); ("stainlessteel", 1.5); ("aluminum", 2)].

Fixpoint dict_getitem (d : list (string * R)) (key : string) : result R :=
  match d with
  | [] => Raise (KeyError key)
  | (k, v) :: rest => if String.eqb key k then Ok v else dict_getitem rest key
  end.

Section CostCustomVessel.

Variable reg : registry.                          (* the state of [pyunits] *)
Variable volume_per_unit : expr.
Variable material : string.
Variable water_injection_rate_per_unit : expr.
Variable number_of_units : Z.
Variable CE_index_year : string.

Definition cost_var (CE_index_units : units) : component :=
  CVar 1000 CE_index_units NonNegativeReals (Some 0, None).

Definition capital_cost_per_unit_eq (CE_index_units : units) : result constraint :=
  USD_custom <- getattr_units reg "USD_custom" ;;
  let ref_cost := Mul (Num 10000) (UnitE USD_custom) in
  let ref_volume := Mul (Num 1000) (Pow (UnitE u_m) 3) in
  factor <- dict_getitem material_factor_dict material ;;
  rhs <- convert (Mul (Mul (Num factor) ref_cost)
                      (Pow (Div volume_per_unit ref_volume) (6 # 10)))
                 CE_index_units ;;
  Ok (EqC (VarE (BlockVar "capital_cost_per_unit") CE_index_units) rhs).

Definition capital_cost_constraint (CE_index_units : units) : result constraint :=
  Ok (EqC (VarE (BlockVar "capital_cost") CE_index_units)
          (Mul (VarE (BlockVar "capital_cost_per_unit") CE_index_units)
               (Num (IZR number_of_units)))).

Definition fixed_operating_cost_per_unit_eq (CE_index_units : units)
  : result constraint :=
  rhs <- convert (Mul (Num 0.05) (VarE (BlockVar "capital_cost") CE_index_units))
                 CE_index_units ;;
  Ok (EqC (VarE (BlockVar "fixed_operating_cost_per_unit") CE_index_units) rhs).

Definition fixed_operating_cost_constraint (CE_index_units : units)
  : result constraint :=
  Ok (EqC (VarE (BlockVar "fixed_operating_cost") CE_index_units)
          (Mul (VarE (BlockVar "fixed_operating_cost_per_unit") CE_index_units)
               (Num (IZR number_of_units)))).

Definition variable_operating_cost_per_unit_eq (CE_index_units : units)
  : result constraint :=
  let per_year := u_div CE_index_units u_year in
  USD_custom <- getattr_units reg "USD_custom" ;;
  rhs <- convert (Mul (Div (Mul (Num 0.00190) (UnitE USD_custom)) (UnitE u_gal))
                      water_injection_rate_per_unit)
                 per_year ;;
  Ok (EqC (VarE (BlockVar "variable_operating_cost_per_unit") per_year) rhs).

Definition variable_operating_cost_constraint (CE_index_units : units)
  : result constraint :=
  let per_year := u_div CE_index_units u_year in
  Ok (EqC (VarE (BlockVar "variable_operating_cost") per_year)
          (Mul (VarE (BlockVar "variable_operating_cost_per_unit") per_year)
               (Num (IZR number_of_units)))).

Definition cost_custom_vessel : SE block Datatypes.unit :=
  CE_index_units <~ lift (getattr_units reg ("MUSD_" ++ CE_index_year)%string) ;
  add_component "number_of_units" (CParam (IZR number_of_units) false) >>
  add_component "capital_cost_per_unit" (cost_var CE_index_units) >>
  Constraint "capital_cost_per_unit_eq" (capital_cost_per_unit_eq CE_index_units) >>
  add_component "capital_cost" (cost_var CE_index_units) >>
  Constraint "capital_cost_constraint" (capital_cost_constraint CE_index_units) >>
  add_component "fixed_operating_cost_per_unit" (cost_var CE_index_units) >>
  Constraint "fixed_operating_cost_per_unit_eq"
             (fixed_operating_cost_per_unit_eq CE_index_units) >>
  add_component "fixed_operating_cost" (cost_var CE_index_units) >>
  Constraint "fixed_operating_cost_constraint"
             (fixed_operating_cost_constraint CE_index_units) >>
  add_component "variable_operating_cost_per_unit"
                (cost_var (u_div CE_index_units u_year)) >>
  Constraint "variable_operating_cost_per_unit_eq"
             (variable_operating_cost_per_unit_eq CE_index_units) >>
  add_component "variable_operating_cost"
                (cost_var (u_div CE_index_units u_year)) >>
  Constraint "variable_operating_cost_constraint"
             (variable_operating_cost_constraint CE_index_units).

End CostCustomVessel.

(** The names [cost_custom_vessel] declares on the block. *)
Definition component_names : list string :=
  ["number_of_units"; "capital_cost_per_unit"; "capital_cost_per_unit_eq";
   "capital_cost"; "capital_cost_constraint"; "fixed_operating_cost_per_unit";
   "fixed_operating_cost_per_unit_eq"; "fixed_operating_cost";
   "fixed_operating_cost_constraint"; "variable_operating_cost_per_unit";
   "variable_operating_cost_per_unit_eq"; "variable_operating_cost";
   "variable_operating_cost_constraint"].

(** A block on which none of them is declared yet. *)
Definition fresh (blk : block) : Prop :=
  forall name, In name component_names -> declared name blk = false.

(** The components declared up to the fixed operating cost per unit. *)
Definition capital_part (n : Z) (cu : units) (c1 c2 : constraint) : block :=
  [("number_of_units", CParam (IZR n) false);
   ("capital_cost_per_unit", cost_var cu);
   ("capital_cost_per_unit_eq", CConstraint c1);
   ("capital_cost", cost_var cu);
   ("capital_cost_constraint",
    CConstraint (EqC (VarE (BlockVar "capital_cost") cu)
                     (Mul (VarE (BlockVar "capital_cost_per_unit") cu) (Num (IZR n)))));
   ("fixed_operating_cost_per_unit", cost_var cu);
   ("fixed_operating_cost_per_unit_eq", CConstraint c2)].

(** The components declared after it, when the variable-cost rule succeeds. *)
Definition operating_part (n : Z) (cu : units) (c3 : constraint) : block :=
  [("fixed_operating_cost", cost_var cu);
   ("fixed_operating_cost_constraint",
    CConstraint (EqC (VarE (BlockVar "fixed_operating_cost") cu)
                     (Mul (VarE (BlockVar "fixed_operating_cost_per_unit") cu)
                          (Num (IZR n)))));
   ("variable_operating_cost_per_unit", cost_var (u_div cu u_year));
   ("variable_operating_cost_per_unit_eq", CConstraint c3);
   ("variable_operating_cost", cost_var (u_div cu u_year));
   ("variable_operating_cost_constraint",
    CConstraint (EqC (VarE (BlockVar "variable_operating_cost") (u_div cu u_year))
                     (Mul (VarE (BlockVar "variable_operating_cost_per_unit")
                                (u_div cu u_year))
                          (Num (IZR n)))))].

Definition dim_volume : dim := mkDim 3 0 0 0 0.
Definition dim_volume_rate : dim := mkDim 3 0 (-1) 0 0.

(** The factor that takes [USD_custom * (units of V / m^3) ^ 0.6] to the
    currency of the cost year. *)
Definition capital_conversion (uc uV cu : units) : R :=
  scale uc * Rpower (scale uV) 0.6 / scale cu.

(** The factor that takes [USD_custom / gal * (units of w)] to the
    currency of the cost year per year. *)
Definition variable_conversion (uc uw cu : units) : R :=
  scale uc / scale u_gal * scale uw / (scale cu / scale u_year).

(** The number the right-hand side of a declared equality constraint
    evaluates to. *)
Definition constraint_target (name : string) (blk : block) (st : valuation)
  : result R :=
  match get_component name blk with
  | Some (CConstraint (EqC _ rhs)) => value st rhs
  | _ => Raise (KeyError name)
  end.

(** ** [build_global_params] *)

Record global_params : Type := {
  base_currency : units;
  base_period : units }.

Definition build_global_params (reg : registry) : result global_params :=
  USD_2021 <- getattr_units reg "USD_2021" ;;
  Ok {| base_currency := USD_2021; base_period := u_year |}.

(** ** Valuations that satisfy the constraints *)

Definition holds (st : valuation) (c : constraint) : Prop :=
  match c with
  | EqC lhs rhs => exists x, value st lhs = Ok x /\ value st rhs = Ok x
  end.

Definition constraint_holds (name : string) (blk : block) (st : valuation) : Prop :=
  exists c, get_component name blk = Some (CConstraint c) /\ holds st c.

Definition constraint_names : list string :=
  ["capital_cost_per_unit_eq"; "capital_cost_constraint";
   "fixed_operating_cost_per_unit_eq"; "fixed_operating_cost_constraint";
   "variable_operating_cost_per_unit_eq"; "variable_operating_cost_constraint"].

End Costing.

(* ================================================================== *)
(** * Concrete inputs *)
(* ================================================================== *)

Module Samples.
Import Pyomo.
Local Open Scope R_scope.
Local Open Scope string_scope.

(** Property packages that declare flows in L/s and kg/s. *)
Definition pu_Ls_kgs : Translator.property_units :=
  {| Translator.in_flow_vol_units := u_div u_L u_s;
     Translator.in_flow_mass_units := u_div u_kg u_s;
     Translator.out_flow_mass_units := u_div u_kg u_s;
     Translator.out_log10_molality_units := dimensionless |}.


(** Every volumetric flow is 1, every species flow 0.001. *)
Definition st_example : valuation :=
  fun x => match x with
           | StateVar _ _ _ None => Some 1
           | StateVar _ _ _ (Some _) => Some 0.001
           | BlockVar _ => None
           end.

(** An upstream state block with one free and one fixed state variable,
    and no call made yet. *)
Definition w0 : Translator.world :=
  {| Translator.fixed_in := [("flow_vol", false); ("conc_mass_comp", true)];
     Translator.trace := [] |}.

Definition infeasible_result : Translator.solver_results :=
  {| Translator.status := Translator.warning;
     Translator.termination_condition := Translator.infeasible |}.

(** The solver returns, reporting an infeasible problem. *)
Definition ext_infeasible : Translator.collaborators :=
  {| Translator.get_solver_outcome := None;
     Translator.properties_in_initialize_outcome := None;
     Translator.properties_out_initialize_outcome := None;
     Translator.degrees_of_freedom := 0;
     Translator.solve_outcome := Ok infeasible_result |}.

(** Two degrees of freedom are left over. *)
Definition ext_dof2 : Translator.collaborators :=
  {| Translator.get_solver_outcome := None;
     Translator.properties_in_initialize_outcome := None;
     Translator.properties_out_initialize_outcome := None;
     Translator.degrees_of_freedom := 2;
     Translator.solve_outcome := Ok infeasible_result |}.

(** The solver call itself raises. *)
Definition ext_solver_crash : Translator.collaborators :=
  {| Translator.get_solver_outcome := None;
     Translator.properties_in_initialize_outcome := None;
     Translator.properties_out_initialize_outcome := None;
     Translator.degrees_of_freedom := 0;
     Translator.solve_outcome := Raise (ExternalError "solver not found") |}.

(** The downstream state block fails to initialize. *)
Definition ext_out_fails : Translator.collaborators :=
  {| Translator.get_solver_outcome := None;
     Translator.properties_in_initialize_outcome := None;
     Translator.properties_out_initialize_outcome :=
       Some (InitializationError "properties_out failed to initialize");
     Translator.degrees_of_freedom := 0;
     Translator.solve_outcome := Ok infeasible_result |}.

(** Valuations with a vanishing volumetric flow, with no aluminum in the
    feed, and with no value on the volumetric flow. *)
Definition st_zero_flow : valuation :=
  fun x => match x with
           | StateVar _ _ _ None => Some 0
           | StateVar _ _ _ (Some _) => Some 0.001
           | BlockVar _ => None
           end.


Definition st_unset_flow : valuation :=
  fun x => match x with
           | StateVar _ _ _ None => None
           | StateVar _ _ _ (Some _) => Some 0.001
           | BlockVar _ => None
           end.

(** Property packages whose volumetric flow is declared in kg/s. *)
Definition pu_bad_flow_vol : Translator.property_units :=
  {| Translator.in_flow_vol_units := u_div u_kg u_s;
     Translator.in_flow_mass_units := u_div u_kg u_s;
     Translator.out_flow_mass_units := u_div u_kg u_s;
     Translator.out_log10_molality_units := dimensionless |}.

(** The currency units as IDAES registers them: the base unit at cost index
    500 and the 2021 unit at index 708. *)
Definition reg_idaes : registry :=
  [("USD_CE500", BaseDef dim_currency);
   ("USD_2021", ScaledDef (500 # 708) "USD_CE500")].

(** The registry once the class [CustomCostingData] is defined. *)
Definition reg_costing : registry := Costing.CustomCostingData_class_body reg_idaes.

(** The default arguments of [cost_custom_vessel]. *)
Definition default_volume_per_unit : expr := Mul (Num 1000) (Pow (UnitE u_m) 3).
Definition default_water_injection_rate_per_unit : expr :=
  Div (Mul (Num 1) (Pow (UnitE u_m) 3)) (UnitE u_s).

Definition MUSD_2021 : units := mkUnit (1000000 * (Q2R (500 # 708) * 1)) dim_currency.
Definition USD_2021 : units := mkUnit (Q2R (500 # 708) * 1) dim_currency.
Definition USD_custom : units := mkUnit (Q2R (500 # 700) * 1) dim_currency.

(** A call with the defaults except for the material. *)
Definition vessel_call (material : string) : SE Costing.block Datatypes.unit :=
  Costing.cost_custom_vessel reg_costing default_volume_per_unit material
    default_water_injection_rate_per_unit 1 "2021".

(** The valuation that solves the six constraints of a call with the
    defaults for three units of carbon steel. *)
Definition capital_target_3 : R :=
  1 * 10000 * Rpower (1000 / 1000) 0.6
  * Costing.capital_conversion USD_custom (get_units default_volume_per_unit) MUSD_2021.

Definition variable_target_3 : R :=
  0.00190 * 1
  * Costing.variable_conversion USD_custom
      (get_units default_water_injection_rate_per_unit) MUSD_2021.

Definition st_solution : valuation :=
  fun x =>
    match x with
    | BlockVar name =>
        if String.eqb name "capital_cost_per_unit" then Some capital_target_3
        else if String.eqb name "capital_cost" then Some (capital_target_3 * 3)
        else if String.eqb name "fixed_operating_cost_per_unit"
             then Some (0.05 * (capital_target_3 * 3))
        else if String.eqb name "fixed_operating_cost"
             then Some (0.05 * (capital_target_3 * 3) * 3)
        else if String.eqb name "variable_operating_cost_per_unit"
             then Some variable_target_3
        else if String.eqb name "variable_operating_cost"
             then Some (variable_target_3 * 3)
        else None
    | StateVar _ _ _ _ => None
    end.

(** A vessel of no volume. *)
Definition zero_volume : expr := Mul (Num 0) (Pow (UnitE u_m) 3).

End Samples.

(* ================================================================== *)
(** * Facts about the substrate *)
(* ================================================================== *)

Module PyomoFacts.
Import Pyomo.
Local Open Scope R_scope.
Local Open Scope string_scope.
Local Open Scope list_scope.

Lemma div_value_ok (x y : R) : y <> 0 -> div_value x y = Ok (x / y).
Proof. intros H. unfold div_value. destruct (Req_EM_T y 0); [contradiction|reflexivity]. Qed.

Lemma div_value_inv (x y v : R) : div_value x y = Ok v -> y <> 0 /\ v = x / y.
Proof.
  unfold div_value. destruct (Req_EM_T y 0); [discriminate|].
  intros H; inversion H; auto.
Qed.

Lemma log10_ok (x : R) : 0 < x -> log10 x = Ok (ln x / ln 10).
Proof. intros H. unfold log10. destruct (Rlt_dec 0 x); [reflexivity|contradiction]. Qed.

Lemma log10_inv (x v : R) : log10 x = Ok v -> 0 < x /\ v = ln x / ln 10.
Proof.
  unfold log10. destruct (Rlt_dec 0 x); [|discriminate].
  intros H; inversion H; auto.
Qed.

Lemma pow_value_pos (x : R) (q : Q) : 0 < x -> pow_value x q = Ok (Rpower x (Q2R q)).
Proof. intros H. unfold pow_value. destruct (Rlt_dec 0 x); [reflexivity|contradiction]. Qed.

Lemma construct_indexed_getitem {A} (name : string) (rule : Z -> result A)
    (idx : list Z) (l : list (Z * A)) (t : Z) :
  construct_indexed rule idx = Ok l -> In t idx ->
  exists a, rule t = Ok a /\ getitem name l t = Ok a.
Proof.
  revert l. induction idx as [|t0 idx IH]; intros l H Hin; [destruct Hin|].
  simpl in H. destruct (rule t0) as [a0|] eqn:E0; simpl in H; [|discriminate].
  destruct (construct_indexed rule idx) as [l0|] eqn:E1; simpl in H; [|discriminate].
  inversion H; subst l; clear H. simpl.
  destruct (Z.eqb_spec t t0) as [->|Hne].
  - exists a0; auto.
  - destruct Hin as [->|Hin]; [contradiction|]. apply (IH l0); auto.
Qed.

Lemma construct_indexed_total {A} (rule : Z -> result A) (idx : list Z) :
  (forall t, In t idx -> exists a, rule t = Ok a) ->
  exists l, construct_indexed rule idx = Ok l.
Proof.
  induction idx as [|t0 idx IH]; intros H; simpl.
  - exists []; reflexivity.
  - destruct (H t0 (or_introl eq_refl)) as [a Ha]. rewrite Ha. simpl.
    destruct IH as [l Hl]. { intros t Ht; apply H; right; exact Ht. }
    rewrite Hl. simpl. eexists; reflexivity.
Qed.

Lemma value_convert (st : valuation) (src c : expr) (to : units) :
  convert src to = Ok c ->
  value st c = rbind (value st src) (fun v => Ok (conversion_factor (get_units src) to * v)).
Proof.
  unfold convert. destruct (dim_eqb _ _); [|discriminate].
  intros H; inversion H; subst c; clear H. simpl.
  rewrite div_value_ok by lra. simpl.
  destruct (value st src); simpl; [|reflexivity]. f_equal. field.
Qed.

Lemma convert_variables (src c : expr) (to : units) :
  convert src to = Ok c -> variables c = variables src.
Proof.
  unfold convert. destruct (dim_eqb _ _); [|discriminate].
  intros H; inversion H; reflexivity.
Qed.

Lemma convert_dims_ok (src : expr) (to : units) :
  dim_eqb (dims (get_units src)) (dims to) = true ->
  exists c, convert src to = Ok c.
Proof. intros H. unfold convert. rewrite H. eexists; reflexivity. Qed.

(** ** Dimensions *)

Lemma dim_eqb_iff (a b : dim) :
  dim_eqb a b = true <->
  (d_length a == d_length b /\ d_mass a == d_mass b /\ d_time a == d_time b
   /\ d_amount a == d_amount b /\ d_currency a == d_currency b)%Q.
Proof.
  unfold dim_eqb. rewrite !andb_true_iff, !Qeq_bool_iff. tauto.
Qed.

Lemma dim_eqb_scalar_mul (d : dim) : dim_eqb (dim_mul dim_zero d) d = true.
Proof. apply dim_eqb_iff. simpl. repeat split; ring. Qed.

Lemma Rpower_1_l (y : R) : Rpower 1 y = 1.
Proof. unfold Rpower. rewrite ln_1, Rmult_0_r. apply exp_0. Qed.

End PyomoFacts.

Module Log10Facts.
Import Log10.
Local Open Scope R_scope.

Lemma ln_10_pos : 0 < ln 10.
Proof. rewrite <- ln_1. apply ln_increasing; lra. Qed.

Lemma ln_quot (x y : R) : 0 < x -> 0 < y -> ln (x / y) = ln x - ln y.
Proof.
  intros Hx Hy. unfold Rdiv. rewrite ln_mult, ln_Rinv; auto using Rinv_0_lt_compat.
Qed.












End Log10Facts.

(* ================================================================== *)
(** * The translator: initialization *)
(* ================================================================== *)

Module TranslatorInitFacts.
Import Pyomo Translator.
Local Open Scope string_scope.
Local Open Scope list_scope.

Lemma all_fixed_hold (f : flags) :
  all_fixed (map (fun p => (fst p, true)) f) = true.
Proof.
  induction f as [|[n b] f IH]; simpl; auto.
Qed.

Ltac run_init :=
  unfold initialize_build, get_solver, properties_in_initialize,
    properties_out_initialize, opt_solve, release_state, outcome, emit,
    bind, ret, raise; simpl.

(** C5.  When both state blocks initialize, the degrees of freedom are zero
    and the solver returns a result, [initialize_build] calls
    [release_state] with the flags of the hold right after the solve,
    whatever the result says; the upstream fixing is back to what it was.
    Only then is the result examined: a non-optimal one raises
    [InitializationError] with the message naming the block. *)
Theorem release_precedes_initialization_error (name : string) (ext : collaborators) (w : world) (res : solver_results) :
  get_solver_outcome ext = None ->
  properties_in_initialize_outcome ext = None ->
  properties_out_initialize_outcome ext = None ->
  degrees_of_freedom ext = 0%Z ->
  solve_outcome ext = Ok res ->
  let r := initialize_build name ext w in
  trace (snd r) =
    trace w ++ [EvGetSolver; EvInitializeIn true; EvInitializeOut; EvSolve;
                EvReleaseState (fixed_in w); EvLogInfo res]
  /\ fixed_in (snd r) = fixed_in w
  /\ (check_optimal_termination res = false ->
      fst r = Raise (InitializationError
                (name ++ " failed to initialize successfully. Please check the output logs for more information.")))
  /\ (check_optimal_termination res = true -> fst r = Ok tt).
Proof.
  intros Hs Hi Ho Hd Hr. run_init. rewrite Hs, Hi, Ho, Hd, Hr. simpl.
  destruct (check_optimal_termination res); simpl;
    repeat rewrite <- app_assoc; simpl; repeat split; auto; discriminate.
Qed.

Lemma release_precedes_initialization_error_witness :
  trace (snd (initialize_build "fs.translator" Samples.ext_infeasible Samples.w0)) =
    [EvGetSolver; EvInitializeIn true; EvInitializeOut; EvSolve;
     EvReleaseState (fixed_in Samples.w0); EvLogInfo Samples.infeasible_result]
  /\ fst (initialize_build "fs.translator" Samples.ext_infeasible Samples.w0) =
     Raise (InitializationError
       "fs.translator failed to initialize successfully. Please check the output logs for more information.").
Proof.
  destruct (release_precedes_initialization_error "fs.translator"
              Samples.ext_infeasible Samples.w0 Samples.infeasible_result
              eq_refl eq_refl eq_refl eq_refl eq_refl) as [Ht [_ [Hr _]]].
  split; [exact Ht | exact (Hr eq_refl)].
Defined.

(** C6.  When the degrees of freedom are not zero after both state blocks
    are initialized, [initialize_build] raises the builtin [Exception]
    whose message starts with the block name and ends with the count; the
    solver has not been called, and the exception is no
    [InitializationError]. *)
Theorem dof_error_precedes_solve (name : string) (ext : collaborators) (w : world) :
  get_solver_outcome ext = None ->
  properties_in_initialize_outcome ext = None ->
  properties_out_initialize_outcome ext = None ->
  degrees_of_freedom ext <> 0%Z ->
  let r := initialize_build name ext w in
  fst r = Raise (PyException
            (name ++ " degrees of freedom were not 0 at the beginning of initialization. DoF = "
                  ++ str_of_int (degrees_of_freedom ext)))
  /\ trace (snd r) = trace w ++ [EvGetSolver; EvInitializeIn true; EvInitializeOut]
  /\ existsb is_solve [EvGetSolver; EvInitializeIn true; EvInitializeOut] = false
  /\ (forall msg, fst r <> Raise (InitializationError msg)).
Proof.
  intros Hs Hi Ho Hd. run_init. rewrite Hs, Hi, Ho. simpl.
  destruct (Z.eqb_spec (degrees_of_freedom ext) 0) as [E|E]; [contradiction|].
  simpl. repeat rewrite <- app_assoc. simpl.
  repeat split; auto. intros msg H. discriminate H.
Qed.

Lemma dof_error_precedes_solve_witness :
  fst (initialize_build "fs.translator" Samples.ext_dof2 Samples.w0) =
    Raise (PyException
      "fs.translator degrees of freedom were not 0 at the beginning of initialization. DoF = 2")
  /\ trace (snd (initialize_build "fs.translator" Samples.ext_dof2 Samples.w0)) =
     [EvGetSolver; EvInitializeIn true; EvInitializeOut].
Proof.
  assert (Hd : degrees_of_freedom Samples.ext_dof2 <> 0%Z) by discriminate.
  destruct (dof_error_precedes_solve "fs.translator" Samples.ext_dof2 Samples.w0
              eq_refl eq_refl eq_refl Hd) as [Hr [Ht _]].
  split; [exact Hr | exact Ht].
Defined.

(** C10.  When the degrees-of-freedom check fails or the solver call
    raises, [initialize_build] raises without having called
    [release_state], and every upstream state variable is still fixed.  A
    call of [release_state] is made only when the check passed and the
    solver returned. *)
Theorem hold_kept_without_release (name : string) (ext : collaborators) (w : world) :
  get_solver_outcome ext = None ->
  properties_in_initialize_outcome ext = None ->
  properties_out_initialize_outcome ext = None ->
  let r := initialize_build name ext w in
  exists evs,
    trace (snd r) = trace w ++ evs
    /\ (degrees_of_freedom ext <> 0%Z \/ (exists e, solve_outcome ext = Raise e) ->
        (exists e, fst r = Raise e)
        /\ existsb is_release evs = false
        /\ all_fixed (fixed_in (snd r)) = true)
    /\ (existsb is_release evs = true ->
        degrees_of_freedom ext = 0%Z /\ exists res, solve_outcome ext = Ok res).
Proof.
  intros Hs Hi Ho. run_init. rewrite Hs, Hi, Ho. simpl.
  destruct (Z.eqb_spec (degrees_of_freedom ext) 0) as [E|E]; simpl.
  - destruct (solve_outcome ext) as [res|e] eqn:Hr; simpl.
    + exists [EvGetSolver; EvInitializeIn true; EvInitializeOut; EvSolve;
              EvReleaseState (fixed_in w); EvLogInfo res].
      split.
      { destruct (check_optimal_termination res); simpl;
          repeat rewrite <- app_assoc; reflexivity. }
      split.
      { intros [H|[e H]]; [contradiction|discriminate]. }
      intros _. split; [assumption|]. exists res. reflexivity.
    + exists [EvGetSolver; EvInitializeIn true; EvInitializeOut; EvSolve].
      repeat rewrite <- app_assoc. simpl. split; [reflexivity|]. split.
      { intros _. split; [exists e; reflexivity|]. split; [reflexivity|].
        apply all_fixed_hold. }
      intros H; discriminate H.
  - exists [EvGetSolver; EvInitializeIn true; EvInitializeOut].
    repeat rewrite <- app_assoc. simpl. split; [reflexivity|]. split.
    { intros _. split; [eexists; reflexivity|]. split; [reflexivity|].
      apply all_fixed_hold. }
    intros H; discriminate H.
Qed.

Lemma hold_kept_without_release_witness :
  exists evs,
    trace (snd (initialize_build "fs.translator" Samples.ext_solver_crash Samples.w0)) = evs
    /\ existsb is_release evs = false
    /\ all_fixed (fixed_in (snd (initialize_build "fs.translator"
                                   Samples.ext_solver_crash Samples.w0))) = true.
Proof.
  destruct (hold_kept_without_release "fs.translator" Samples.ext_solver_crash
              Samples.w0 eq_refl eq_refl eq_refl) as [evs [Ht [Hfail _]]].
  destruct (Hfail (or_intror (ex_intro _ _ eq_refl))) as [_ [Hrel Hfix]].
  exists evs. split; [exact Ht|]. split; [exact Hrel | exact Hfix].
Defined.

End TranslatorInitFacts.

(* ================================================================== *)
(** * The translator: the constraints [build] declares *)
(* ================================================================== *)

Module TranslatorBuildFacts.
Import Pyomo Translator PyomoFacts Log10Facts.
Local Open Scope R_scope.
Local Open Scope string_scope.
Local Open Scope list_scope.

Lemma value_solvent_mass_flow (pu : property_units) (st : valuation) (t : Z) (e : expr) :
  rule_solvent_mass_flow pu t = Ok e ->
  value st e = match st (var_in_flow_vol t) with
               | Some fv => Ok (fv * vol_factor pu * 1.840)
               | None => Raise (ValueError "No value for uninitialized NumericValue object")
               end
  /\ variables e = [var_in_flow_vol t].
Proof.
  unfold rule_solvent_mass_flow.
  destruct (convert _ _) as [c|] eqn:Hc; simpl; [|discriminate].
  intros H; inversion H; subst e; clear H. simpl.
  rewrite (value_convert st _ _ _ Hc), (convert_variables _ _ _ Hc). simpl.
  split; [|reflexivity].
  unfold var_in_flow_vol. destruct (st _); simpl; [|reflexivity].
  rewrite div_value_ok by lra. simpl. f_equal. unfold vol_factor. field.
Qed.

Lemma value_molar_flow (pu : property_units) (st : valuation)
    (j : string) (mw : R) (t : Z) (e : expr) :
  mw <> 0 ->
  rule_molar_flow pu j (Div (Mul (Num mw) (UnitE u_kg)) (UnitE u_mol)) t = Ok e ->
  value st e = match st (var_in_flow_mass t j) with
               | Some fm => Ok (fm * mass_factor pu / mw)
               | None => Raise no_value
               end.
Proof.
  intros Hmw. unfold rule_molar_flow.
  destruct (convert _ _) as [c|] eqn:Hc; simpl; [|discriminate].
  intros H; inversion H; subst e; clear H. simpl.
  rewrite (value_convert st _ _ _ Hc). simpl.
  unfold var_in_flow_mass. destruct (st _); simpl; [|reflexivity].
  rewrite div_value_ok by lra. simpl.
  rewrite div_value_ok by (intros E; apply Hmw; lra).
  f_equal. unfold mass_factor. simpl. field. exact Hmw.
Qed.

(** What a molality rule that succeeded has computed. *)
Lemma rule_eq_molality_inv (pu : property_units) (st : valuation)
    (ion fname j : string) (mw : R) (mf smf : list (Z * expr)) (t : Z)
    (a s : expr) (c : constraint) :
  mw <> 0 ->
  getitem fname mf t = Ok a ->
  rule_molar_flow pu j (Div (Mul (Num mw) (UnitE u_kg)) (UnitE u_mol)) t = Ok a ->
  getitem "solvent_mass_flow" smf t = Ok s ->
  rule_solvent_mass_flow pu t = Ok s ->
  rule_eq_molality pu st ion fname mf smf t = Ok c ->
  exists fm fv,
    st (var_in_flow_mass t j) = Some fm /\ st (var_in_flow_vol t) = Some fv
    /\ 0 < (fm * mass_factor pu / mw) / (fv * vol_factor pu * 1.840)
    /\ c = EqC (properties_out_log10_molality_comp pu t ion)
               (Num (ln ((fm * mass_factor pu / mw) / (fv * vol_factor pu * 1.840)) / ln 10)).
Proof.
  intros Hmw Ha Hra Hs Hrs. unfold rule_eq_molality, expression_ref.
  rewrite Ha, Hs. simpl.
  rewrite (value_molar_flow pu st j mw t a Hmw Hra).
  destruct (value_solvent_mass_flow pu st t s Hrs) as [-> _].
  destruct (st (var_in_flow_mass t j)) as [fm|]; simpl; [|discriminate].
  destruct (st (var_in_flow_vol t)) as [fv|]; simpl; [|discriminate].
  destruct (div_value _ _) as [v|] eqn:Hv; simpl; [|discriminate].
  apply div_value_inv in Hv. destruct Hv as [_ ->].
  destruct (log10 _) as [l|] eqn:Hl; simpl; [|discriminate].
  apply log10_inv in Hl. destruct Hl as [Hpos ->].
  intros H; inversion H; subst c. exists fm, fv. auto.
Qed.


Lemma rule_eq_molality_ok (pu : property_units) (st : valuation)
    (ion fname j : string) (mw : R) (mf smf : list (Z * expr)) (t : Z)
    (a s : expr) (fm fv : R) :
  0 < mw -> 0 < mass_factor pu -> 0 < vol_factor pu ->
  getitem fname mf t = Ok a ->
  rule_molar_flow pu j (Div (Mul (Num mw) (UnitE u_kg)) (UnitE u_mol)) t = Ok a ->
  getitem "solvent_mass_flow" smf t = Ok s ->
  rule_solvent_mass_flow pu t = Ok s ->
  st (var_in_flow_mass t j) = Some fm -> 0 < fm ->
  st (var_in_flow_vol t) = Some fv -> 0 < fv ->
  exists c, rule_eq_molality pu st ion fname mf smf t = Ok c.
Proof.
  intros Hmw Hmf Hvf Ha Hra Hs Hrs Hfm Hfmp Hfv Hfvp.
  unfold rule_eq_molality, expression_ref. rewrite Ha, Hs. simpl.
  rewrite (value_molar_flow pu st j mw t a) by (lra || assumption).
  destruct (value_solvent_mass_flow pu st t s Hrs) as [-> _].
  rewrite Hfm, Hfv. simpl.
  assert (Hden : 0 < fv * vol_factor pu * 1.840)
    by (apply Rmult_lt_0_compat; [apply Rmult_lt_0_compat; assumption | lra]).
  assert (Hnum : 0 < fm * mass_factor pu / mw)
    by (apply Rdiv_lt_0_compat; [apply Rmult_lt_0_compat; assumption | assumption]).
  rewrite div_value_ok by lra. simpl.
  rewrite log10_ok by (apply Rdiv_lt_0_compat; assumption). simpl.
  eexists; reflexivity.
Qed.

(** ** The fixed-chemistry rules *)

Lemma Rpower_10_pH : Rpower 10 (Q2R (- pH)) = Rpower 10 (-2.5).
Proof.
  replace (Q2R (- pH)) with (-2.5); [reflexivity | unfold pH, Q2R; simpl; lra].
Qed.

Lemma rule_eq_hydrogen_molality_value (pu : property_units) (t : Z) :
  rule_eq_hydrogen_molality pu t =
    Ok (EqC (properties_out_log10_molality_comp pu t "H^+") (Num (-2.5))).
Proof.
  pose proof ln_10_pos as HL.
  unfold rule_eq_hydrogen_molality. rewrite pow_value_pos by lra. simpl.
  rewrite Rpower_10_pH.
  rewrite log10_ok by (unfold Rpower; apply exp_pos). simpl.
  rewrite ln_Rpower.
  replace (-2.5 * ln 10 / ln 10) with (-2.5) by (field; lra). reflexivity.
Qed.

Lemma ln_Kw : ln Kw = -14 * ln 10.
Proof.
  replace Kw with (/ 10 ^ 14) by (unfold Kw; lra).
  rewrite ln_Rinv by (apply pow_lt; lra). rewrite ln_pow by lra.
  simpl INR. lra.
Qed.

Lemma rule_eq_hydroxide_molality_value (pu : property_units) (t : Z) :
  rule_eq_hydroxide_molality pu t =
    Ok (EqC (properties_out_log10_molality_comp pu t "OH^-") (Num (-11.5))).
Proof.
  pose proof ln_10_pos as HL.
  unfold rule_eq_hydroxide_molality. rewrite pow_value_pos by lra. simpl.
  rewrite Rpower_10_pH.
  assert (Hh : 0 < Rpower 10 (-2.5)) by (unfold Rpower; apply exp_pos).
  assert (Hk : 0 < Kw) by (unfold Kw; lra).
  rewrite div_value_ok by lra. simpl.
  rewrite log10_ok by (apply Rdiv_lt_0_compat; assumption). simpl.
  rewrite ln_quot, ln_Kw, ln_Rpower by assumption.
  replace (-14 * ln 10 - -2.5 * ln 10) with (-11.5 * ln 10) by lra.
  replace (-11.5 * ln 10 / ln 10) with (-11.5) by (field; lra).
  reflexivity.
Qed.

(** ** What a successful [build] has run *)

Lemma build_inv (pu : property_units) (st : valuation) (time : list Z) (blk : block) :
  build pu st time = Ok blk ->
  construct_indexed (rule_solvent_mass_flow pu) time = Ok (solvent_mass_flow blk)
  /\ construct_indexed (rule_eq_flow_mass_rule pu (solvent_mass_flow blk)) time
     = Ok (eq_flow_mass_rule blk)
  /\ construct_indexed (rule_aluminum_molar_flow pu) time = Ok (aluminum_molar_flow blk)
  /\ construct_indexed
       (rule_eq_aluminum_molality pu st (aluminum_molar_flow blk) (solvent_mass_flow blk))
       time = Ok (eq_aluminum_molality blk)
  /\ construct_indexed (rule_calcium_molar_flow pu) time = Ok (calcium_molar_flow blk)
  /\ construct_indexed
       (rule_eq_calcium_molality pu st (calcium_molar_flow blk) (solvent_mass_flow blk))
       time = Ok (eq_calcium_molality blk)
  /\ construct_indexed (rule_iron_molar_flow pu) time = Ok (iron_molar_flow blk)
  /\ construct_indexed
       (rule_eq_iron_molality pu st (iron_molar_flow blk) (solvent_mass_flow blk))
       time = Ok (eq_iron_molality blk)
  /\ construct_indexed (rule_eq_hydrogen_molality pu) time = Ok (eq_hydrogen_molality blk)
  /\ construct_indexed (rule_eq_hydroxide_molality pu) time = Ok (eq_hydroxide_molality blk).
Proof.
  unfold build. intros H.
  destruct (construct_indexed (rule_solvent_mass_flow pu) time)
    as [smf|] eqn:E1; simpl in H; [|discriminate].
  destruct (construct_indexed (rule_eq_flow_mass_rule pu smf) time)
    as [efm|] eqn:E2; simpl in H; [|discriminate].
  destruct (construct_indexed (rule_aluminum_molar_flow pu) time)
    as [al|] eqn:E3; simpl in H; [|discriminate].
  destruct (construct_indexed (rule_eq_aluminum_molality pu st al smf) time)
    as [eal|] eqn:E4; simpl in H; [|discriminate].
  destruct (construct_indexed (rule_calcium_molar_flow pu) time)
    as [ca|] eqn:E5; simpl in H; [|discriminate].
  destruct (construct_indexed (rule_eq_calcium_molality pu st ca smf) time)
    as [eca|] eqn:E6; simpl in H; [|discriminate].
  destruct (construct_indexed (rule_iron_molar_flow pu) time)
    as [fe|] eqn:E7; simpl in H; [|discriminate].
  destruct (construct_indexed (rule_eq_iron_molality pu st fe smf) time)
    as [efe|] eqn:E8; simpl in H; [|discriminate].
  destruct (construct_indexed (rule_eq_hydrogen_molality pu) time)
    as [eh|] eqn:E9; simpl in H; [|discriminate].
  destruct (construct_indexed (rule_eq_hydroxide_molality pu) time)
    as [eoh|] eqn:E10; simpl in H; [|discriminate].
  inversion H; subst blk; simpl. repeat split; assumption.
Qed.

(** One molality constraint of a successful build, for a species given by
    its molar-flow table and its molality table. *)
Lemma molality_constraint_of_build (pu : property_units) (st : valuation)
    (time : list Z) (smf mf : list (Z * expr)) (tbl : list (Z * constraint))
    (ion fname cname j : string) (mw : R) (t : Z) :
  mw <> 0 -> In t time ->
  construct_indexed (rule_solvent_mass_flow pu) time = Ok smf ->
  construct_indexed
    (rule_molar_flow pu j (Div (Mul (Num mw) (UnitE u_kg)) (UnitE u_mol))) time = Ok mf ->
  construct_indexed (rule_eq_molality pu st ion fname mf smf) time = Ok tbl ->
  exists fm fv target,
    st (var_in_flow_mass t j) = Some fm /\ st (var_in_flow_vol t) = Some fv
    /\ log10 ((fm * mass_factor pu / mw) / (fv * vol_factor pu * 1.840)) = Ok target
    /\ getitem cname tbl t
       = Ok (EqC (properties_out_log10_molality_comp pu t ion) (Num target)).
Proof.
  intros Hmw Hin Hsmf Hmf Htbl.
  destruct (construct_indexed_getitem "solvent_mass_flow" _ _ _ t Hsmf Hin)
    as [s [Hrs Hs]].
  destruct (construct_indexed_getitem fname _ _ _ t Hmf Hin) as [a [Hra Ha]].
  destruct (construct_indexed_getitem cname _ _ _ t Htbl Hin) as [c [Hrc Hc]].
  destruct (rule_eq_molality_inv pu st ion fname j mw mf smf t a s c
              Hmw Ha Hra Hs Hrs Hrc) as [fm [fv [Hfm [Hfv [Hpos ->]]]]].
  exists fm, fv, (ln ((fm * mass_factor pu / mw) / (fv * vol_factor pu * 1.840)) / ln 10).
  repeat split; try assumption. apply log10_ok; exact Hpos.
Qed.

(** [build] goes through when the upstream units are a volume and a mass
    per time and every upstream flow holds a positive value. *)
Lemma build_succeeds (pu : property_units) (st : valuation) (time : list Z) :
  dim_eqb (dims (in_flow_vol_units pu)) (dims (u_div u_L u_s)) = true ->
  dim_eqb (dims (in_flow_mass_units pu)) (dims (u_div u_kg u_s)) = true ->
  0 < vol_factor pu -> 0 < mass_factor pu ->
  (forall t, In t time -> exists fv, st (var_in_flow_vol t) = Some fv /\ 0 < fv) ->
  (forall t j, In t time -> exists fm, st (var_in_flow_mass t j) = Some fm /\ 0 < fm) ->
  exists blk, build pu st time = Ok blk.
Proof.
  intros Hdv Hdm Hvf Hmf Hfv Hfm. unfold build.
  assert (Hrs : forall t, exists e, rule_solvent_mass_flow pu t = Ok e).
  { intros t. unfold rule_solvent_mass_flow.
    destruct (convert_dims_ok (properties_in_flow_vol pu t) _ Hdv) as [c ->].
    simpl. eexists; reflexivity. }
  assert (Hrm : forall j mw t, exists e, rule_molar_flow pu j mw t = Ok e).
  { intros j mw t. unfold rule_molar_flow.
    destruct (convert_dims_ok (properties_in_flow_mass pu t j) _ Hdm) as [c ->].
    simpl. eexists; reflexivity. }
  destruct (construct_indexed_total (rule_solvent_mass_flow pu) time) as [smf Hsmf];
    [intros; apply Hrs|]. rewrite Hsmf. simpl.
  assert (Hsmf_t : forall t, In t time -> exists s,
             getitem "solvent_mass_flow" smf t = Ok s /\ rule_solvent_mass_flow pu t = Ok s).
  { intros t Ht.
    destruct (construct_indexed_getitem "solvent_mass_flow" _ _ _ t Hsmf Ht) as [e [? ?]].
    exists e; auto. }
  destruct (construct_indexed_total (rule_eq_flow_mass_rule pu smf) time) as [efm ->].
  { intros t Ht. destruct (Hsmf_t t Ht) as [e [He _]].
    unfold rule_eq_flow_mass_rule, expression_ref. rewrite He. simpl.
    eexists; reflexivity. }
  simpl.
  assert (Hmol : forall j ion fname mw, 0 < mw ->
            forall mf, construct_indexed
                         (rule_molar_flow pu j (Div (Mul (Num mw) (UnitE u_kg)) (UnitE u_mol)))
                         time = Ok mf ->
            exists tbl, construct_indexed (rule_eq_molality pu st ion fname mf smf) time
                        = Ok tbl).
  { intros j ion fname mw Hmw mf Hmfc. apply construct_indexed_total. intros t Ht.
    destruct (Hsmf_t t Ht) as [e [He Hre]].
    destruct (construct_indexed_getitem fname _ _ _ t Hmfc Ht) as [a [Hra Ha]].
    destruct (Hfv t Ht) as [fv [Hv Hvp]]. destruct (Hfm t j Ht) as [fm [Hm Hmp]].
    apply (rule_eq_molality_ok pu st ion fname j mw mf smf t a e fm fv); assumption. }
  destruct (construct_indexed_total (rule_aluminum_molar_flow pu) time) as [al Hal];
    [intros; apply Hrm|]. rewrite Hal. simpl.
  destruct (Hmol "Al" "Al^3+" "aluminum_molar_flow" 0.02698154 ltac:(lra) al Hal) as [eal Heal].
  unfold rule_eq_aluminum_molality. rewrite Heal. simpl.
  destruct (construct_indexed_total (rule_calcium_molar_flow pu) time) as [ca Hca];
    [intros; apply Hrm|]. rewrite Hca. simpl.
  destruct (Hmol "Ca" "Ca^2+" "calcium_molar_flow" 0.03996259 ltac:(lra) ca Hca) as [eca Heca].
  unfold rule_eq_calcium_molality. rewrite Heca. simpl.
  destruct (construct_indexed_total (rule_iron_molar_flow pu) time) as [fe Hfe];
    [intros; apply Hrm|]. rewrite Hfe. simpl.
  destruct (Hmol "Fe" "Fe^3+" "iron_molar_flow" 0.05593494 ltac:(lra) fe Hfe) as [efe Hefe].
  unfold rule_eq_iron_molality. rewrite Hefe. simpl.
  destruct (construct_indexed_total (rule_eq_hydrogen_molality pu) time) as [eh ->].
  { intros t _. rewrite rule_eq_hydrogen_molality_value. eexists; reflexivity. }
  simpl.
  destruct (construct_indexed_total (rule_eq_hydroxide_molality pu) time) as [eoh ->].
  { intros t _. rewrite rule_eq_hydroxide_molality_value. eexists; reflexivity. }
  simpl. eexists; reflexivity.
Qed.

(** The sample flowsheet builds at the single time point 0. *)
Lemma sample_build_succeeds :
  exists blk, build Samples.pu_Ls_kgs Samples.st_example [0%Z] = Ok blk.
Proof.
  apply build_succeeds.
  - reflexivity.
  - reflexivity.
  - unfold vol_factor, conversion_factor; simpl. lra.
  - unfold mass_factor, conversion_factor; simpl. lra.
  - intros t _. exists 1. split; [reflexivity | lra].
  - intros t j _. exists 0.001. split; [reflexivity | lra].
Qed.

(** ** The claims on [build] *)







End TranslatorBuildFacts.

(* ================================================================== *)
(** * The custom vessel costing *)
(* ================================================================== *)

Module CostingFacts.
Import Pyomo Costing PyomoFacts.
Local Open Scope R_scope.
Local Open Scope string_scope.
Local Open Scope list_scope.

(** ** Declaring components on a fresh block *)

Lemma declared_app (name : string) (b1 b2 : block) :
  declared name (b1 ++ b2) = declared name b1 || declared name b2.
Proof. unfold declared. apply existsb_app. Qed.

Lemma add_component_fresh (name : string) (c : component) (blk ext : block) :
  declared name blk = false -> declared name ext = false ->
  add_component name c (blk ++ ext) = (Ok tt, blk ++ (ext ++ [(name, c)])).
Proof.
  intros H1 H2. unfold add_component, make_room. rewrite declared_app, H1, H2. simpl.
  rewrite app_assoc. reflexivity.
Qed.

Lemma add_component_first (name : string) (c : component) (blk : block) :
  declared name blk = false ->
  add_component name c blk = (Ok tt, blk ++ [(name, c)]).
Proof. intros H. unfold add_component, make_room. rewrite H. reflexivity. Qed.

Lemma Constraint_fresh (name : string) (rule : result constraint) (blk ext : block) :
  declared name blk = false -> declared name ext = false ->
  Constraint name rule (blk ++ ext) =
    match rule with
    | Ok c => (Ok tt, blk ++ (ext ++ [(name, CConstraint c)]))
    | Raise e => (Raise e, blk ++ (ext ++ [(name, CUnbuilt)]))
    end.
Proof.
  intros H1 H2. unfold Constraint, make_room. rewrite declared_app, H1, H2. simpl.
  destruct rule; rewrite app_assoc; reflexivity.
Qed.

Lemma get_component_app (name : string) (b1 b2 : block) :
  declared name b1 = false ->
  get_component name (b1 ++ b2) = get_component name b2.
Proof.
  induction b1 as [|[n c] b1 IH]; simpl; [reflexivity|].
  destruct (String.eqb name n); simpl; [discriminate | exact IH].
Qed.

Lemma variables_built_app (b1 b2 : block) :
  variables_built (b1 ++ b2) = variables_built b1 ++ variables_built b2.
Proof. unfold variables_built. rewrite filter_app, map_app. reflexivity. Qed.

Ltac step_fresh Hfresh :=
  first [ rewrite add_component_fresh
            by first [ apply Hfresh; simpl; tauto | reflexivity ]
        | rewrite Constraint_fresh
            by first [ apply Hfresh; simpl; tauto | reflexivity ] ];
  cbn [app].

(** ** The run of [cost_custom_vessel] *)

Lemma fixed_operating_cost_per_unit_eq_ok (cu : units) :
  exists rhs,
    convert (Mul (Num 0.05) (VarE (BlockVar "capital_cost") cu)) cu = Ok rhs
    /\ fixed_operating_cost_per_unit_eq cu
       = Ok (EqC (VarE (BlockVar "fixed_operating_cost_per_unit") cu) rhs).
Proof.
  unfold fixed_operating_cost_per_unit_eq.
  destruct (convert_dims_ok (Mul (Num 0.05) (VarE (BlockVar "capital_cost") cu)) cu)
    as [rhs Hrhs]; [simpl; apply dim_eqb_scalar_mul|].
  exists rhs. rewrite Hrhs. split; reflexivity.
Qed.

(** The whole call, once the unit of the cost year resolves and the
    capital-cost rule succeeds: only the variable-cost rule can still
    raise. *)
Lemma run_cost_custom_vessel (reg : registry) (V w : expr) (material year : string)
    (n : Z) (blk : block) (cu : units) (c1 c2 : constraint) :
  fresh blk ->
  getattr_units reg ("MUSD_" ++ year) = Ok cu ->
  capital_cost_per_unit_eq reg V material cu = Ok c1 ->
  fixed_operating_cost_per_unit_eq cu = Ok c2 ->
  cost_custom_vessel reg V material w n year blk
  = match variable_operating_cost_per_unit_eq reg w cu with
    | Ok c3 => (Ok tt, blk ++ capital_part n cu c1 c2 ++ operating_part n cu c3)
    | Raise e => (Raise e, blk ++ capital_part n cu c1 c2
                               ++ firstn 3 (operating_part n cu (EqC (Num 0) (Num 0)))
                               ++ [("variable_operating_cost_per_unit_eq", CUnbuilt)])
    end.
Proof.
  intros Hfresh Hcu Hc1 Hc2. unfold cost_custom_vessel, bind, lift.
  rewrite Hcu. rewrite add_component_first by (apply Hfresh; simpl; tauto).
  step_fresh Hfresh. step_fresh Hfresh. rewrite Hc1.
  step_fresh Hfresh. step_fresh Hfresh. unfold capital_cost_constraint.
  step_fresh Hfresh. step_fresh Hfresh. rewrite Hc2.
  step_fresh Hfresh. step_fresh Hfresh. unfold fixed_operating_cost_constraint.
  step_fresh Hfresh. step_fresh Hfresh.
  destruct (variable_operating_cost_per_unit_eq reg w cu) as [c3|e].
  - step_fresh Hfresh. step_fresh Hfresh.
    unfold variable_operating_cost_constraint. reflexivity.
  - reflexivity.
Qed.

Lemma run_capital_part (reg : registry) (V w : expr) (material year : string)
    (n : Z) (blk : block) (cu : units) (c1 c2 : constraint) :
  fresh blk ->
  getattr_units reg ("MUSD_" ++ year) = Ok cu ->
  capital_cost_per_unit_eq reg V material cu = Ok c1 ->
  fixed_operating_cost_per_unit_eq cu = Ok c2 ->
  exists rest,
    snd (cost_custom_vessel reg V material w n year blk)
    = blk ++ capital_part n cu c1 c2 ++ rest.
Proof.
  intros Hfresh Hcu Hc1 Hc2.
  rewrite (run_cost_custom_vessel reg V w material year n blk cu c1 c2) by assumption.
  destruct (variable_operating_cost_per_unit_eq reg w cu);
    eexists; reflexivity.
Qed.

(** When the capital-cost rule raises, the call stops there: the Param,
    the first Var and the Constraint without an equation are on the block,
    nothing else is. *)
Lemma run_capital_rule_raises (reg : registry) (V w : expr) (material year : string)
    (n : Z) (blk : block) (cu : units) (e : exn) :
  fresh blk ->
  getattr_units reg ("MUSD_" ++ year) = Ok cu ->
  capital_cost_per_unit_eq reg V material cu = Raise e ->
  cost_custom_vessel reg V material w n year blk
  = (Raise e, blk ++ [("number_of_units", CParam (IZR n) false);
                      ("capital_cost_per_unit", cost_var cu);
                      ("capital_cost_per_unit_eq", CUnbuilt)]).
Proof.
  intros Hfresh Hcu Hc1. unfold cost_custom_vessel, bind, lift.
  rewrite Hcu. rewrite add_component_first by (apply Hfresh; simpl; tauto).
  step_fresh Hfresh. step_fresh Hfresh. rewrite Hc1.
  reflexivity.
Qed.

(** ** What the three rules with a conversion compute *)

Ltac dims_tac :=
  repeat match goal with
         | H : dim_eqb _ _ = true |- _ =>
             apply dim_eqb_iff in H; simpl in H; destruct H as (? & ? & ? & ? & ?)
         end;
  apply dim_eqb_iff; simpl; repeat split;
  repeat match goal with
         | H : (_ == _)%Q |- _ => rewrite H; clear H
         end;
  ring.

Lemma dict_getitem_cases (material : string) (mf : R) :
  dict_getitem material_factor_dict material = Ok mf ->
  In (material, mf) [("carbonsteel", 1); ("stainlessteel", 1.5); ("aluminum", 2)].
Proof.
  simpl.
  destruct (String.eqb_spec material "carbonsteel") as [->|_];
    [intros H; inversion H; auto|].
  destruct (String.eqb_spec material "stainlessteel") as [->|_];
    [intros H; inversion H; auto|].
  destruct (String.eqb_spec material "aluminum") as [->|_];
    [intros H; inversion H; auto|].
  discriminate.
Qed.

Lemma dict_getitem_unknown (material : string) :
  ~ In material (map fst material_factor_dict) ->
  dict_getitem material_factor_dict material = Raise (KeyError material).
Proof.
  simpl. intros H.
  destruct (String.eqb_spec material "carbonsteel") as [->|_]; [tauto|].
  destruct (String.eqb_spec material "stainlessteel") as [->|_]; [tauto|].
  destruct (String.eqb_spec material "aluminum") as [->|_]; [tauto|].
  reflexivity.
Qed.

Lemma capital_cost_per_unit_eq_value (reg : registry) (V : expr) (material : string)
    (cu uc : units) (mf : R) :
  getattr_units reg "USD_custom" = Ok uc ->
  dict_getitem material_factor_dict material = Ok mf ->
  dim_eqb (dims uc) dim_currency = true ->
  dim_eqb (dims cu) dim_currency = true ->
  dim_eqb (dims (get_units V)) dim_volume = true ->
  exists rhs,
    capital_cost_per_unit_eq reg V material cu
    = Ok (EqC (VarE (BlockVar "capital_cost_per_unit") cu) rhs)
    /\ forall (st : valuation) (v : R),
         value st V = Ok v -> 0 < v ->
         value st rhs
         = Ok (mf * 10000 * Rpower (v / 1000) 0.6
               * capital_conversion uc (get_units V) cu).
Proof.
  intros Huc Hmf Hduc Hdcu HdV. unfold capital_cost_per_unit_eq.
  rewrite Huc, Hmf. simpl.
  set (src := Mul (Mul (Num mf) (Mul (Num 10000) (UnitE uc)))
                  (Pow (Div V (Mul (Num 1000) (Pow (UnitE u_m) 3))) (6 # 10))).
  destruct (convert_dims_ok src cu) as [rhs Hrhs]; [unfold src; simpl; dims_tac|].
  rewrite Hrhs. simpl. exists rhs. split; [reflexivity|].
  intros st v Hv Hpos. rewrite (value_convert st src rhs cu Hrhs).
  unfold src. simpl. rewrite Hv. simpl.
  rewrite pow_value_pos by lra. simpl. rewrite Rpower_1_l.
  rewrite div_value_ok by lra. simpl.
  assert (Hq : 0 < v / (1000 * 1)) by (apply Rdiv_lt_0_compat; lra).
  rewrite pow_value_pos by exact Hq. simpl.
  unfold capital_conversion, conversion_factor. simpl.
  rewrite Rpower_1_l.
  replace (v / (1000 * 1)) with (v / 1000) by (field; lra).
  replace (scale (get_units V) / (1 * 1)) with (scale (get_units V)) by (field; lra).
  f_equal. unfold Rdiv. ring.
Qed.

Lemma fixed_operating_cost_per_unit_eq_value (cu : units) :
  0 < scale cu ->
  exists rhs,
    fixed_operating_cost_per_unit_eq cu
    = Ok (EqC (VarE (BlockVar "fixed_operating_cost_per_unit") cu) rhs)
    /\ variables rhs = [BlockVar "capital_cost"]
    /\ forall (st : valuation) (c : R),
         st (BlockVar "capital_cost") = Some c -> value st rhs = Ok (0.05 * c).
Proof.
  intros Hs. destruct (fixed_operating_cost_per_unit_eq_ok cu) as [rhs [Hrhs Hrule]].
  exists rhs. split; [exact Hrule|]. split.
  - rewrite (convert_variables _ _ _ Hrhs). reflexivity.
  - intros st c Hc. rewrite (value_convert st _ _ _ Hrhs). simpl. rewrite Hc. simpl.
    f_equal. unfold conversion_factor. simpl. field. lra.
Qed.

Lemma variable_operating_cost_per_unit_eq_value (reg : registry) (w : expr)
    (cu uc : units) :
  getattr_units reg "USD_custom" = Ok uc ->
  dim_eqb (dims uc) dim_currency = true ->
  dim_eqb (dims cu) dim_currency = true ->
  dim_eqb (dims (get_units w)) dim_volume_rate = true ->
  exists rhs,
    variable_operating_cost_per_unit_eq reg w cu
    = Ok (EqC (VarE (BlockVar "variable_operating_cost_per_unit") (u_div cu u_year)) rhs)
    /\ forall (st : valuation) (wv : R),
         value st w = Ok wv ->
         value st rhs = Ok (0.00190 * wv * variable_conversion uc (get_units w) cu).
Proof.
  intros Huc Hduc Hdcu Hdw. unfold variable_operating_cost_per_unit_eq.
  rewrite Huc. simpl.
  set (src := Mul (Div (Mul (Num 0.00190) (UnitE uc)) (UnitE u_gal)) w).
  destruct (convert_dims_ok src (u_div cu u_year)) as [rhs Hrhs];
    [unfold src; simpl; dims_tac|].
  rewrite Hrhs. simpl. exists rhs. split; [reflexivity|].
  intros st wv Hw. rewrite (value_convert st src rhs _ Hrhs).
  unfold src. simpl. rewrite div_value_ok by lra. simpl. rewrite Hw. simpl.
  f_equal. unfold variable_conversion, conversion_factor. simpl.
  replace (0.00190 * 1 / 1 * wv) with (0.00190 * wv) by lra.
  unfold Rdiv. ring.
Qed.

(** ** The sample registry *)

Lemma fresh_nil : fresh [].
Proof. intros name _. reflexivity. Qed.

Lemma sample_MUSD_2021 :
  getattr_units Samples.reg_costing ("MUSD_" ++ "2021") = Ok Samples.MUSD_2021.
Proof. reflexivity. Qed.

Lemma sample_USD_custom :
  getattr_units Samples.reg_costing "USD_custom" = Ok Samples.USD_custom.
Proof. reflexivity. Qed.

Lemma sample_scale_pos : 0 < scale Samples.MUSD_2021.
Proof. unfold Samples.MUSD_2021, Q2R; simpl. lra. Qed.

(** ** The claims on [cost_custom_vessel] *)

(** C2, as the code has it.  With a material that is no key of the factor
    table (the cost year and [USD_custom] resolving, the block fresh), the
    call raises [KeyError] on the material from inside the first constraint
    rule.  By then the Param [number_of_units] and the Var
    [capital_cost_per_unit] are on the block, and so is the Constraint
    [capital_cost_per_unit_eq], declared but without an equation; no other
    Var is built. *)
Theorem unsupported_material_raises_after_first_var
    (reg : registry) (V w : expr) (material year : string) (n : Z)
    (blk : block) (cu uc : units) :
  fresh blk ->
  getattr_units reg ("MUSD_" ++ year) = Ok cu ->
  getattr_units reg "USD_custom" = Ok uc ->
  ~ In material (map fst material_factor_dict) ->
  cost_custom_vessel reg V material w n year blk
  = (Raise (KeyError material),
     blk ++ [("number_of_units", CParam (IZR n) false);
             ("capital_cost_per_unit", cost_var cu);
             ("capital_cost_per_unit_eq", CUnbuilt)])
  /\ variables_built (snd (cost_custom_vessel reg V material w n year blk))
     = variables_built blk ++ ["capital_cost_per_unit"].
Proof.
  intros Hfresh Hcu Huc Hmat.
  assert (Hrule : capital_cost_per_unit_eq reg V material cu = Raise (KeyError material)).
  { unfold capital_cost_per_unit_eq.
    rewrite Huc, (dict_getitem_unknown material Hmat). reflexivity. }
  rewrite (run_capital_rule_raises reg V w material year n blk cu _ Hfresh Hcu Hrule).
  split; [reflexivity|]. simpl. rewrite variables_built_app. reflexivity.
Qed.

Lemma unsupported_material_raises_after_first_var_witness :
  Samples.vessel_call "titanium" []
  = (Raise (KeyError "titanium"),
     [("number_of_units", CParam 1 false);
      ("capital_cost_per_unit", cost_var Samples.MUSD_2021);
      ("capital_cost_per_unit_eq", CUnbuilt)]).
Proof.
  assert (Hmat : ~ In "titanium" (map fst material_factor_dict)).
  { simpl. intros [H|[H|[H|[]]]]; discriminate H. }
  exact (proj1 (unsupported_material_raises_after_first_var
                  Samples.reg_costing Samples.default_volume_per_unit
                  Samples.default_water_injection_rate_per_unit
                  "titanium" "2021" 1 [] Samples.MUSD_2021 Samples.USD_custom
                  fresh_nil sample_MUSD_2021 sample_USD_custom Hmat)).
Defined.

(** C2, as stated, fails: the call with "titanium" on an empty block does
    not leave the block without variables. *)
Lemma unsupported_material_builds_a_variable :
  ~ (exists key,
        fst (Samples.vessel_call "titanium" []) = Raise (KeyError key)
        /\ variables_built (snd (Samples.vessel_call "titanium" [])) = []).
Proof.
  intros [key [_ H]].
  assert (Hrule : capital_cost_per_unit_eq Samples.reg_costing
                    Samples.default_volume_per_unit "titanium" Samples.MUSD_2021
                  = Raise (KeyError "titanium")) by reflexivity.
  unfold Samples.vessel_call in H.
  rewrite (run_capital_rule_raises _ _ _ _ _ _ [] _ _ fresh_nil sample_MUSD_2021 Hrule)
    in H.
  discriminate H.
Qed.

(** C4.  For a valid call (units resolving with the dimension of a
    currency, a material of the table, a volume and a volume rate) on a
    fresh block, the call returns and [fixed_operating_cost_per_unit_eq]
    equates [fixed_operating_cost_per_unit] with an expression whose only
    variable is [capital_cost] and whose value is 0.05 times the value of
    [capital_cost]; [capital_cost_per_unit] does not occur in it. *)
Theorem fixed_operating_cost_per_unit_is_5_percent_of_capital_cost
    (reg : registry) (V w : expr) (material year : string) (n : Z)
    (blk : block) (cu uc : units) (mf : R) :
  fresh blk ->
  getattr_units reg ("MUSD_" ++ year) = Ok cu ->
  getattr_units reg "USD_custom" = Ok uc ->
  dict_getitem material_factor_dict material = Ok mf ->
  dim_eqb (dims uc) dim_currency = true ->
  dim_eqb (dims cu) dim_currency = true ->
  0 < scale cu ->
  dim_eqb (dims (get_units V)) dim_volume = true ->
  dim_eqb (dims (get_units w)) dim_volume_rate = true ->
  fst (cost_custom_vessel reg V material w n year blk) = Ok tt
  /\ exists rhs,
       get_component "fixed_operating_cost_per_unit_eq"
         (snd (cost_custom_vessel reg V material w n year blk))
       = Some (CConstraint
                 (EqC (VarE (BlockVar "fixed_operating_cost_per_unit") cu) rhs))
       /\ variables rhs = [BlockVar "capital_cost"]
       /\ ~ In (BlockVar "capital_cost_per_unit") (variables rhs)
       /\ forall (st : valuation) (c : R),
            st (BlockVar "capital_cost") = Some c -> value st rhs = Ok (0.05 * c).
Proof.
  intros Hfresh Hcu Huc Hmf Hduc Hdcu Hs HdV Hdw.
  destruct (capital_cost_per_unit_eq_value reg V material cu uc mf
              Huc Hmf Hduc Hdcu HdV) as [rhs1 [Hc1 _]].
  destruct (fixed_operating_cost_per_unit_eq_value cu Hs) as [rhs2 [Hc2 [Hvars Hval]]].
  destruct (variable_operating_cost_per_unit_eq_value reg w cu uc
              Huc Hduc Hdcu Hdw) as [rhs3 [Hc3 _]].
  rewrite (run_cost_custom_vessel reg V w material year n blk cu _ _ Hfresh Hcu Hc1 Hc2).
  rewrite Hc3. split; [reflexivity|]. exists rhs2. cbn [snd].
  rewrite get_component_app by (apply Hfresh; simpl; tauto).
  split; [reflexivity|]. split; [exact Hvars|]. split; [|exact Hval].
  rewrite Hvars. simpl. intros [H|[]]. discriminate H.
Qed.

Lemma fixed_operating_cost_per_unit_is_5_percent_of_capital_cost_witness :
  fst (Samples.vessel_call "carbonsteel" []) = Ok tt
  /\ exists rhs,
       get_component "fixed_operating_cost_per_unit_eq"
         (snd (Samples.vessel_call "carbonsteel" []))
       = Some (CConstraint
                 (EqC (VarE (BlockVar "fixed_operating_cost_per_unit") Samples.MUSD_2021)
                      rhs))
       /\ variables rhs = [BlockVar "capital_cost"]
       /\ ~ In (BlockVar "capital_cost_per_unit") (variables rhs)
       /\ forall (st : valuation) (c : R),
            st (BlockVar "capital_cost") = Some c -> value st rhs = Ok (0.05 * c).
Proof.
  exact (fixed_operating_cost_per_unit_is_5_percent_of_capital_cost
           Samples.reg_costing Samples.default_volume_per_unit
           Samples.default_water_injection_rate_per_unit "carbonsteel" "2021" 1 []
           Samples.MUSD_2021 Samples.USD_custom 1
           fresh_nil sample_MUSD_2021 sample_USD_custom eq_refl eq_refl eq_refl
           sample_scale_pos eq_refl eq_refl).
Defined.

(** The capital-cost constraint of a call that got past its rule. *)
Lemma capital_target (reg : registry) (V w : expr) (material year : string) (n : Z)
    (blk : block) (cu uc : units) (mf : R) (st : valuation) (v : R) :
  fresh blk ->
  getattr_units reg ("MUSD_" ++ year) = Ok cu ->
  getattr_units reg "USD_custom" = Ok uc ->
  dict_getitem material_factor_dict material = Ok mf ->
  dim_eqb (dims uc) dim_currency = true ->
  dim_eqb (dims cu) dim_currency = true ->
  dim_eqb (dims (get_units V)) dim_volume = true ->
  value st V = Ok v -> 0 < v ->
  (exists rhs,
      get_component "capital_cost_per_unit_eq"
        (snd (cost_custom_vessel reg V material w n year blk))
      = Some (CConstraint (EqC (VarE (BlockVar "capital_cost_per_unit") cu) rhs)))
  /\ constraint_target "capital_cost_per_unit_eq"
       (snd (cost_custom_vessel reg V material w n year blk)) st
     = Ok (mf * 10000 * Rpower (v / 1000) 0.6
           * capital_conversion uc (get_units V) cu).
Proof.
  intros Hfresh Hcu Huc Hmf Hduc Hdcu HdV Hv Hpos.
  destruct (capital_cost_per_unit_eq_value reg V material cu uc mf
              Huc Hmf Hduc Hdcu HdV) as [rhs1 [Hc1 Hval]].
  destruct (fixed_operating_cost_per_unit_eq_ok cu) as [rhs2 [_ Hc2]].
  destruct (run_capital_part reg V w material year n blk cu _ _ Hfresh Hcu Hc1 Hc2)
    as [rest Hrun].
  unfold constraint_target. rewrite Hrun.
  rewrite get_component_app by (apply Hfresh; simpl; tauto).
  simpl. split; [exists rhs1; reflexivity | apply Hval; assumption].
Qed.

(** C7.  On a fresh block, with units that resolve to currencies, a
    material of the table and a positive volume, the constraint
    [capital_cost_per_unit_eq] equates [capital_cost_per_unit] with
    factor * 10000 * (volume / 1000) ^ 0.6, taken from [USD_custom] (and the
    units of the volume) to the currency of the cost year.  The factor is
    1, 1.5 or 2 for "carbonsteel", "stainlessteel", "aluminum".  Another
    material changes the target in proportion to its factor; another
    volume, in the same units, changes it by the 0.6 power of the ratio of
    the volumes. *)
Theorem capital_cost_per_unit_follows_power_law
    (reg : registry) (V w : expr) (material year : string) (n : Z)
    (blk : block) (cu uc : units) (mf : R) (st : valuation) (v : R) :
  fresh blk ->
  getattr_units reg ("MUSD_" ++ year) = Ok cu ->
  getattr_units reg "USD_custom" = Ok uc ->
  dict_getitem material_factor_dict material = Ok mf ->
  dim_eqb (dims uc) dim_currency = true ->
  dim_eqb (dims cu) dim_currency = true ->
  dim_eqb (dims (get_units V)) dim_volume = true ->
  value st V = Ok v -> 0 < v ->
  let built := fun (V0 : expr) (material0 : string) =>
                 snd (cost_custom_vessel reg V0 material0 w n year blk) in
  let base := 10000 * Rpower (v / 1000) 0.6 * capital_conversion uc (get_units V) cu in
  In (material, mf) [("carbonsteel", 1); ("stainlessteel", 1.5); ("aluminum", 2)]
  /\ (exists rhs,
         get_component "capital_cost_per_unit_eq" (built V material)
         = Some (CConstraint (EqC (VarE (BlockVar "capital_cost_per_unit") cu) rhs)))
  /\ constraint_target "capital_cost_per_unit_eq" (built V material) st
     = Ok (mf * base)
  /\ (forall (material' : string) (mf' : R),
         dict_getitem material_factor_dict material' = Ok mf' ->
         constraint_target "capital_cost_per_unit_eq" (built V material') st
         = Ok (mf' * base))
  /\ (forall (V' : expr) (v' : R),
         get_units V' = get_units V -> value st V' = Ok v' -> 0 < v' ->
         constraint_target "capital_cost_per_unit_eq" (built V' material) st
         = Ok (Rpower (v' / v) 0.6 * (mf * base))).
Proof.
  intros Hfresh Hcu Huc Hmf Hduc Hdcu HdV Hv Hpos built base.
  split; [apply dict_getitem_cases; exact Hmf|].
  destruct (capital_target reg V w material year n blk cu uc mf st v
              Hfresh Hcu Huc Hmf Hduc Hdcu HdV Hv Hpos) as [Hc Ht].
  split; [exact Hc|]. split.
  - unfold built, base. rewrite Ht. f_equal. ring.
  - split.
    + intros material' mf' Hmf'.
      destruct (capital_target reg V w material' year n blk cu uc mf' st v
                  Hfresh Hcu Huc Hmf' Hduc Hdcu HdV Hv Hpos) as [_ Ht'].
      unfold built, base. rewrite Ht'. f_equal. ring.
    + intros V' v' HuV Hv' Hpos'.
      assert (HdV' : dim_eqb (dims (get_units V')) dim_volume = true)
        by (rewrite HuV; exact HdV).
      destruct (capital_target reg V' w material year n blk cu uc mf st v'
                  Hfresh Hcu Huc Hmf Hduc Hdcu HdV' Hv' Hpos') as [_ Ht'].
      unfold built, base. rewrite Ht', HuV. f_equal.
      replace (v' / 1000) with ((v' / v) * (v / 1000)) by (field; lra).
      rewrite <- Rpower_mult_distr
        by (apply Rdiv_lt_0_compat; (assumption || lra)).
      ring.
Qed.

Lemma capital_cost_per_unit_follows_power_law_witness :
  constraint_target "capital_cost_per_unit_eq"
    (snd (Samples.vessel_call "stainlessteel" [])) (fun _ => None)
  = Ok (1.5 * (10000 * Rpower (1000 / 1000) 0.6
               * capital_conversion Samples.USD_custom
                   (get_units Samples.default_volume_per_unit) Samples.MUSD_2021)).
Proof.
  assert (Hv : value (fun _ => None) Samples.default_volume_per_unit = Ok 1000).
  { unfold Samples.default_volume_per_unit. simpl.
    rewrite pow_value_pos by lra. simpl. rewrite Rpower_1_l. f_equal. lra. }
  assert (Hpos : 0 < 1000) by lra.
  exact (proj1 (proj2 (proj2
           (capital_cost_per_unit_follows_power_law
              Samples.reg_costing Samples.default_volume_per_unit
              Samples.default_water_injection_rate_per_unit "stainlessteel" "2021" 1 []
              Samples.MUSD_2021 Samples.USD_custom 1.5 (fun _ => None) 1000
              fresh_nil sample_MUSD_2021 sample_USD_custom eq_refl eq_refl eq_refl
              eq_refl Hv Hpos)))).
Defined.

(** ** A valid call and its solution *)

(** The block a valid call leaves, with the three converted right-hand
    sides. *)
Lemma valid_call (reg : registry) (V w : expr) (material year : string) (n : Z)
    (blk : block) (cu uc : units) (mf : R) :
  fresh blk ->
  getattr_units reg ("MUSD_" ++ year) = Ok cu ->
  getattr_units reg "USD_custom" = Ok uc ->
  dict_getitem material_factor_dict material = Ok mf ->
  dim_eqb (dims uc) dim_currency = true ->
  dim_eqb (dims cu) dim_currency = true ->
  0 < scale cu ->
  dim_eqb (dims (get_units V)) dim_volume = true ->
  dim_eqb (dims (get_units w)) dim_volume_rate = true ->
  exists rhs1 rhs2 rhs3,
    cost_custom_vessel reg V material w n year blk
    = (Ok tt,
       blk ++ capital_part n cu
                (EqC (VarE (BlockVar "capital_cost_per_unit") cu) rhs1)
                (EqC (VarE (BlockVar "fixed_operating_cost_per_unit") cu) rhs2)
           ++ operating_part n cu
                (EqC (VarE (BlockVar "variable_operating_cost_per_unit")
                           (u_div cu u_year)) rhs3))
    /\ (forall st v, value st V = Ok v -> 0 < v ->
          value st rhs1 = Ok (mf * 10000 * Rpower (v / 1000) 0.6
                              * capital_conversion uc (get_units V) cu))
    /\ (forall st c, st (BlockVar "capital_cost") = Some c ->
          value st rhs2 = Ok (0.05 * c))
    /\ (forall st wv, value st w = Ok wv ->
          value st rhs3 = Ok (0.00190 * wv * variable_conversion uc (get_units w) cu)).
Proof.
  intros Hfresh Hcu Huc Hmf Hduc Hdcu Hs HdV Hdw.
  destruct (capital_cost_per_unit_eq_value reg V material cu uc mf
              Huc Hmf Hduc Hdcu HdV) as [rhs1 [Hc1 Hv1]].
  destruct (fixed_operating_cost_per_unit_eq_value cu Hs) as [rhs2 [Hc2 [_ Hv2]]].
  destruct (variable_operating_cost_per_unit_eq_value reg w cu uc
              Huc Hduc Hdcu Hdw) as [rhs3 [Hc3 Hv3]].
  exists rhs1, rhs2, rhs3.
  rewrite (run_cost_custom_vessel reg V w material year n blk cu _ _ Hfresh Hcu Hc1 Hc2).
  rewrite Hc3. repeat split; assumption.
Qed.

Lemma value_var_inv (st : valuation) (x : var) (u : units) (a : R) :
  value st (VarE x u) = Ok a -> st x = Some a.
Proof.
  simpl. destruct (st x) as [r|]; [|discriminate].
  intros H; inversion H; reflexivity.
Qed.

(** The six constraints of a valid call leave no freedom to the six cost
    variables. *)
Lemma costs_determined
    (reg : registry) (V w : expr) (material year : string) (n : Z)
    (blk : block) (cu uc : units) (mf : R) (st : valuation) (v wv : R) :
  fresh blk ->
  getattr_units reg ("MUSD_" ++ year) = Ok cu ->
  getattr_units reg "USD_custom" = Ok uc ->
  dict_getitem material_factor_dict material = Ok mf ->
  dim_eqb (dims uc) dim_currency = true ->
  dim_eqb (dims cu) dim_currency = true ->
  0 < scale cu ->
  dim_eqb (dims (get_units V)) dim_volume = true ->
  dim_eqb (dims (get_units w)) dim_volume_rate = true ->
  value st V = Ok v -> 0 < v ->
  value st w = Ok wv ->
  (forall name, In name constraint_names ->
     constraint_holds name (snd (cost_custom_vessel reg V material w n year blk)) st) ->
  let T := mf * 10000 * Rpower (v / 1000) 0.6
           * capital_conversion uc (get_units V) cu in
  let Tw := 0.00190 * wv * variable_conversion uc (get_units w) cu in
  st (BlockVar "capital_cost_per_unit") = Some T
  /\ st (BlockVar "capital_cost") = Some (T * IZR n)
  /\ st (BlockVar "fixed_operating_cost_per_unit") = Some (0.05 * (T * IZR n))
  /\ st (BlockVar "fixed_operating_cost") = Some (0.05 * (T * IZR n) * IZR n)
  /\ st (BlockVar "variable_operating_cost_per_unit") = Some Tw
  /\ st (BlockVar "variable_operating_cost") = Some (Tw * IZR n).
Proof.
  intros Hfresh Hcu Huc Hmf Hduc Hdcu Hs HdV Hdw Hv Hpos Hw Hall T Tw.
  destruct (valid_call reg V w material year n blk cu uc mf
              Hfresh Hcu Huc Hmf Hduc Hdcu Hs HdV Hdw)
    as (rhs1 & rhs2 & rhs3 & Hrun & Hv1 & Hv2 & Hv3).
  pose proof (Hall "capital_cost_per_unit_eq" ltac:(simpl; tauto)) as H1.
  pose proof (Hall "capital_cost_constraint" ltac:(simpl; tauto)) as H2.
  pose proof (Hall "fixed_operating_cost_per_unit_eq" ltac:(simpl; tauto)) as H3.
  pose proof (Hall "fixed_operating_cost_constraint" ltac:(simpl; tauto)) as H4.
  pose proof (Hall "variable_operating_cost_per_unit_eq" ltac:(simpl; tauto)) as H5.
  pose proof (Hall "variable_operating_cost_constraint" ltac:(simpl; tauto)) as H6.
  unfold constraint_holds, holds in H1, H2, H3, H4, H5, H6.
  destruct H1 as [c1 [Hc1 H1]]. destruct H2 as [c2 [Hc2 H2]].
  destruct H3 as [c3 [Hc3 H3]]. destruct H4 as [c4 [Hc4 H4]].
  destruct H5 as [c5 [Hc5 H5]]. destruct H6 as [c6 [Hc6 H6]].
  rewrite Hrun in Hc1, Hc2, Hc3, Hc4, Hc5, Hc6. cbn [snd] in *.
  rewrite get_component_app in Hc1, Hc2, Hc3, Hc4, Hc5, Hc6
    by (apply Hfresh; simpl; tauto).
  simpl in Hc1, Hc2, Hc3, Hc4, Hc5, Hc6.
  inversion Hc1; subst c1; clear Hc1. inversion Hc2; subst c2; clear Hc2.
  inversion Hc3; subst c3; clear Hc3. inversion Hc4; subst c4; clear Hc4.
  inversion Hc5; subst c5; clear Hc5. inversion Hc6; subst c6; clear Hc6.
  destruct H1 as [a1 [Hl1 Hr1]]. destruct H2 as [a2 [Hl2 Hr2]].
  destruct H3 as [a3 [Hl3 Hr3]]. destruct H4 as [a4 [Hl4 Hr4]].
  destruct H5 as [a5 [Hl5 Hr5]]. destruct H6 as [a6 [Hl6 Hr6]].
  apply value_var_inv in Hl1, Hl2, Hl3, Hl4, Hl5, Hl6.
  rewrite (Hv1 st v Hv Hpos) in Hr1. inversion Hr1; subst a1; clear Hr1.
  simpl in Hr2. rewrite Hl1 in Hr2. simpl in Hr2. inversion Hr2; subst a2; clear Hr2.
  rewrite (Hv2 st _ Hl2) in Hr3. inversion Hr3; subst a3; clear Hr3.
  simpl in Hr4. rewrite Hl3 in Hr4. simpl in Hr4. inversion Hr4; subst a4; clear Hr4.
  rewrite (Hv3 st wv Hw) in Hr5. inversion Hr5; subst a5; clear Hr5.
  simpl in Hr6. rewrite Hl5 in Hr6. simpl in Hr6. inversion Hr6; subst a6; clear Hr6.
  repeat split; assumption.
Qed.

(** ** The custom currency unit *)

Lemma class_body_registers_USD_custom (reg0 : registry) :
  lookup_def "USD_CE500" reg0 = Some (BaseDef dim_currency) ->
  getattr_units (CustomCostingData_class_body reg0) "USD_custom"
  = Ok (mkUnit (Q2R (500 # 700) * 1) dim_currency).
Proof.
  intros H. unfold getattr_units, CustomCostingData_class_body,
    load_definitions_from_strings. simpl. rewrite H. reflexivity.
Qed.

(** C3, as the code has it.  The class body adds one definition of
    [USD_custom] to a registry that had none: 500/700 of [USD_CE500], the
    base currency unit at cost index 500.  Every cost figure of
    [cost_custom_vessel] carries this factor: the two constraints that name
    [USD_custom] have a target of 500/700 times a quantity in which that
    unit plays no part, and in every valuation that satisfies the six
    constraints each of the six cost variables is 500/700 times such a
    quantity. *)
Theorem USD_custom_is_500_700_of_USD_CE500
    (reg0 : registry) (V w : expr) (material year : string) (n : Z)
    (blk : block) (cu : units) (mf : R) (st : valuation) (v wv : R) :
  lookup_def "USD_CE500" reg0 = Some (BaseDef dim_currency) ->
  definitions_of "USD_custom" reg0 = [] ->
  fresh blk ->
  getattr_units (CustomCostingData_class_body reg0) ("MUSD_" ++ year) = Ok cu ->
  dim_eqb (dims cu) dim_currency = true ->
  0 < scale cu ->
  dict_getitem material_factor_dict material = Ok mf ->
  dim_eqb (dims (get_units V)) dim_volume = true ->
  dim_eqb (dims (get_units w)) dim_volume_rate = true ->
  value st V = Ok v -> 0 < v ->
  value st w = Ok wv ->
  let reg := CustomCostingData_class_body reg0 in
  let built := snd (cost_custom_vessel reg V material w n year blk) in
  definitions_of "USD_custom" reg = [ScaledDef (500 # 700) "USD_CE500"]
  /\ getattr_units reg "USD_custom" = Ok (mkUnit (Q2R (500 # 700) * 1) dim_currency)
  /\ Q2R (500 # 700) = 500 / 700
  /\ constraint_target "capital_cost_per_unit_eq" built st
     = Ok (500 / 700
           * (mf * 10000 * Rpower (v / 1000) 0.6
              * (Rpower (scale (get_units V)) 0.6 / scale cu)))
  /\ constraint_target "variable_operating_cost_per_unit_eq" built st
     = Ok (500 / 700
           * (0.00190 * wv
              * (scale (get_units w) / scale u_gal / (scale cu / scale u_year))))
  /\ (forall st' : valuation,
        value st' V = Ok v -> value st' w = Ok wv ->
        (forall name, In name constraint_names -> constraint_holds name built st') ->
        let K := mf * 10000 * Rpower (v / 1000) 0.6
                 * (Rpower (scale (get_units V)) 0.6 / scale cu) in
        let Kw := 0.00190 * wv
                  * (scale (get_units w) / scale u_gal / (scale cu / scale u_year)) in
        st' (BlockVar "capital_cost_per_unit") = Some (500 / 700 * K)
        /\ st' (BlockVar "capital_cost") = Some (500 / 700 * (K * IZR n))
        /\ st' (BlockVar "fixed_operating_cost_per_unit")
           = Some (500 / 700 * (0.05 * (K * IZR n)))
        /\ st' (BlockVar "fixed_operating_cost")
           = Some (500 / 700 * (0.05 * (K * IZR n) * IZR n))
        /\ st' (BlockVar "variable_operating_cost_per_unit") = Some (500 / 700 * Kw)
        /\ st' (BlockVar "variable_operating_cost") = Some (500 / 700 * (Kw * IZR n))).
Proof.
  intros H500 Hnone Hfresh Hcu Hdcu Hs Hmf HdV Hdw Hv Hpos Hw reg built.
  pose proof (class_body_registers_USD_custom reg0 H500) as Huc. fold reg in Huc.
  set (uc := mkUnit (Q2R (500 # 700) * 1) dim_currency) in *.
  assert (Hduc : dim_eqb (dims uc) dim_currency = true) by reflexivity.
  split.
  { change (definitions_of "USD_custom" reg)
      with (ScaledDef (500 # 700) "USD_CE500" :: definitions_of "USD_custom" reg0).
    rewrite Hnone. reflexivity. }
  split; [exact Huc|].
  split; [unfold Q2R; simpl; lra|].
  split; [|split].
  - destruct (capital_target reg V w material year n blk cu uc mf st v
                Hfresh Hcu Huc Hmf Hduc Hdcu HdV Hv Hpos) as [_ Ht].
    unfold built. rewrite Ht. f_equal.
    unfold capital_conversion, uc, Q2R. simpl. field. lra.
  - destruct (capital_cost_per_unit_eq_value reg V material cu uc mf
                Huc Hmf Hduc Hdcu HdV) as [rhs1 [Hc1 _]].
    destruct (fixed_operating_cost_per_unit_eq_ok cu) as [rhs2 [_ Hc2]].
    destruct (variable_operating_cost_per_unit_eq_value reg w cu uc
                Huc Hduc Hdcu Hdw) as [rhs3 [Hc3 Hval]].
    unfold built, constraint_target.
    rewrite (run_cost_custom_vessel reg V w material year n blk cu _ _
               Hfresh Hcu Hc1 Hc2), Hc3.
    cbn [snd]. rewrite get_component_app by (apply Hfresh; simpl; tauto).
    simpl. rewrite (Hval st wv Hw). f_equal.
    unfold variable_conversion, uc, Q2R. simpl. field. lra.
  - intros st' Hv' Hw' Hall K Kw.
    destruct (costs_determined reg V w material year n blk cu uc mf st' v wv
                Hfresh Hcu Huc Hmf Hduc Hdcu Hs HdV Hdw Hv' Hpos Hw' Hall)
      as (E1 & E2 & E3 & E4 & E5 & E6).
    assert (HT : mf * 10000 * Rpower (v / 1000) 0.6
                 * capital_conversion uc (get_units V) cu = 500 / 700 * K).
    { unfold K, capital_conversion, uc, Q2R. simpl. field. lra. }
    assert (HTw : 0.00190 * wv * variable_conversion uc (get_units w) cu
                  = 500 / 700 * Kw).
    { unfold Kw, variable_conversion, uc, Q2R. simpl. field. lra. }
    rewrite HT in E1, E2, E3, E4. rewrite HTw in E5, E6.
    rewrite E1, E2, E3, E4, E5, E6.
    repeat split; f_equal; ring.
Qed.

Lemma USD_custom_is_500_700_of_USD_CE500_witness :
  definitions_of "USD_custom" Samples.reg_costing
  = [ScaledDef (500 # 700) "USD_CE500"]
  /\ constraint_target "capital_cost_per_unit_eq"
       (snd (Samples.vessel_call "aluminum" [])) (fun _ => None)
     = Ok (500 / 700
           * (2 * 10000 * Rpower (1000 / 1000) 0.6
              * (Rpower (scale (get_units Samples.default_volume_per_unit)) 0.6
                 / scale Samples.MUSD_2021))).
Proof.
  assert (Hv : value (fun _ => None) Samples.default_volume_per_unit = Ok 1000).
  { unfold Samples.default_volume_per_unit. simpl.
    rewrite pow_value_pos by lra. simpl. rewrite Rpower_1_l. f_equal. lra. }
  assert (Hw : value (fun _ => None) Samples.default_water_injection_rate_per_unit = Ok 1).
  { unfold Samples.default_water_injection_rate_per_unit. simpl.
    rewrite pow_value_pos by lra. simpl. rewrite Rpower_1_l.
    rewrite div_value_ok by lra. f_equal. lra. }
  assert (Hpos : 0 < 1000) by lra.
  destruct (USD_custom_is_500_700_of_USD_CE500
              Samples.reg_idaes Samples.default_volume_per_unit
              Samples.default_water_injection_rate_per_unit "aluminum" "2021" 1 []
              Samples.MUSD_2021 2 (fun _ => None) 1000 1
              eq_refl eq_refl fresh_nil sample_MUSD_2021 eq_refl sample_scale_pos
              eq_refl eq_refl eq_refl Hv Hpos Hw) as [Hdef [_ [_ [Hcap _]]]].
  split; [exact Hdef | exact Hcap].
Defined.

(** C3, as stated, fails: with the 2021 unit registered at cost index 708,
    [USD_custom] is not 500/700 of it; its definition refers to
    [USD_CE500]. *)
Lemma USD_custom_is_not_500_700_of_USD_2021 :
  lookup_def "USD_custom" Samples.reg_costing
  = Some (ScaledDef (500 # 700) "USD_CE500")
  /\ getattr_units Samples.reg_costing "USD_custom" = Ok Samples.USD_custom
  /\ getattr_units Samples.reg_costing "USD_2021" = Ok Samples.USD_2021
  /\ scale Samples.USD_custom <> 500 / 700 * scale Samples.USD_2021.
Proof.
  split; [reflexivity|]. split; [reflexivity|]. split; [reflexivity|].
  unfold Samples.USD_custom, Samples.USD_2021, Q2R. simpl. lra.
Qed.

End CostingFacts.

(* ================================================================== *)
(** * More on [initialize_build] *)
(* ================================================================== *)

Module TranslatorInitExtra.
Import Pyomo Translator TranslatorInitFacts.
Local Open Scope string_scope.
Local Open Scope list_scope.

Ltac run_init :=
  unfold initialize_build, get_solver, properties_in_initialize,
    properties_out_initialize, opt_solve, release_state, outcome, emit,
    bind, ret, raise; simpl.

(** X1.  Whatever the collaborators answer, the calls [initialize_build]
    makes are an initial part of one fixed sequence: solver lookup,
    upstream initialization with the hold, downstream initialization,
    solve, release with the flags of the hold, log.  So the solver is never
    called before both state blocks were initialized, and the hold is never
    released before the solve. *)
Theorem calls_follow_the_sequence (name : string) (ext : collaborators) (w : world) :
  exists (evs rest : list event) (res : solver_results),
    trace (snd (initialize_build name ext w)) = trace w ++ evs
    /\ evs ++ rest = full_sequence (fixed_in w) res.
Proof.
  set (dummy := {| status := ok; termination_condition := optimal |}).
  run_init.
  destruct (get_solver_outcome ext) as [e|]; simpl.
  { exists [EvGetSolver], (tl (full_sequence (fixed_in w) dummy)), dummy.
    split; reflexivity. }
  destruct (properties_in_initialize_outcome ext) as [e|]; simpl.
  { exists [EvGetSolver; EvInitializeIn true],
      (tl (tl (full_sequence (fixed_in w) dummy))), dummy.
    rewrite <- app_assoc. split; reflexivity. }
  destruct (properties_out_initialize_outcome ext) as [e|]; simpl.
  { exists [EvGetSolver; EvInitializeIn true; EvInitializeOut],
      (skipn 3 (full_sequence (fixed_in w) dummy)), dummy.
    rewrite <- !app_assoc. split; reflexivity. }
  destruct (Z.eqb (degrees_of_freedom ext) 0); simpl.
  - destruct (solve_outcome ext) as [res|e]; simpl.
    + exists (full_sequence (fixed_in w) res), [], res.
      split; [|apply app_nil_r].
      destruct (check_optimal_termination res); simpl;
        rewrite <- !app_assoc; reflexivity.
    + exists [EvGetSolver; EvInitializeIn true; EvInitializeOut; EvSolve],
        (skipn 4 (full_sequence (fixed_in w) dummy)), dummy.
      rewrite <- !app_assoc. split; reflexivity.
  - exists [EvGetSolver; EvInitializeIn true; EvInitializeOut],
      (skipn 3 (full_sequence (fixed_in w) dummy)), dummy.
    rewrite <- !app_assoc. split; reflexivity.
Qed.

(** X2.  [initialize_build] returns normally exactly when no collaborator
    raises, the degrees of freedom are zero and the solver's result passes
    [check_optimal_termination]. *)
Theorem returns_iff_all_pass (name : string) (ext : collaborators) (w : world) :
  fst (initialize_build name ext w) = Ok tt <->
  (get_solver_outcome ext = None
   /\ properties_in_initialize_outcome ext = None
   /\ properties_out_initialize_outcome ext = None
   /\ degrees_of_freedom ext = 0%Z
   /\ exists res, solve_outcome ext = Ok res /\ check_optimal_termination res = true).
Proof.
  run_init. split.
  - destruct (get_solver_outcome ext); simpl; [discriminate|].
    destruct (properties_in_initialize_outcome ext); simpl; [discriminate|].
    destruct (properties_out_initialize_outcome ext); simpl; [discriminate|].
    destruct (Z.eqb_spec (degrees_of_freedom ext) 0) as [Hd|Hd]; simpl; [|discriminate].
    destruct (solve_outcome ext) as [res|e]; simpl; [|discriminate].
    destruct (check_optimal_termination res) eqn:Hc; simpl; [|discriminate].
    intros _. repeat split; auto. exists res. auto.
  - intros [-> [-> [-> [-> [res [-> Hc]]]]]]. simpl. rewrite Hc. reflexivity.
Qed.

(** X3.  An exception leaving [initialize_build] is one a collaborator
    raised, handed on unchanged, or the degrees-of-freedom [Exception], or
    the [InitializationError] for a result that is not optimal. *)
Theorem raised_exception_origin (name : string) (ext : collaborators) (w : world)
    (e : exn) :
  fst (initialize_build name ext w) = Raise e ->
  get_solver_outcome ext = Some e
  \/ properties_in_initialize_outcome ext = Some e
  \/ properties_out_initialize_outcome ext = Some e
  \/ (degrees_of_freedom ext <> 0%Z /\ e = PyException (dof_message name ext))
  \/ solve_outcome ext = Raise e
  \/ (e = InitializationError (init_failed_message name)
      /\ exists res, solve_outcome ext = Ok res
                     /\ check_optimal_termination res = false).
Proof.
  run_init.
  destruct (get_solver_outcome ext) as [e0|]; simpl;
    [intros H; inversion H; left; reflexivity|].
  destruct (properties_in_initialize_outcome ext) as [e0|]; simpl;
    [intros H; inversion H; right; left; reflexivity|].
  destruct (properties_out_initialize_outcome ext) as [e0|]; simpl;
    [intros H; inversion H; do 2 right; left; reflexivity|].
  destruct (Z.eqb_spec (degrees_of_freedom ext) 0) as [Hd|Hd]; simpl;
    [|intros H; inversion H; do 3 right; left; split; [exact Hd | reflexivity]].
  destruct (solve_outcome ext) as [res|e0]; simpl;
    [|intros H; inversion H; do 4 right; left; reflexivity].
  destruct (check_optimal_termination res) eqn:Hc; simpl; [discriminate|].
  intros H; inversion H. do 5 right. split; [reflexivity|]. exists res. auto.
Qed.

Lemma raised_exception_origin_witness :
  solve_outcome Samples.ext_solver_crash = Raise (ExternalError "solver not found").
Proof.
  destruct (raised_exception_origin "fs.translator" Samples.ext_solver_crash
              Samples.w0 (ExternalError "solver not found") eq_refl)
    as [H|[H|[H|[[H _]|[H|[H _]]]]]];
    first [discriminate H | exact H | exfalso; apply H; reflexivity].
Defined.

(** X4.  When the downstream initialization raises, after the upstream one
    took its hold, the exception passes through, the solver is not called,
    [release_state] is not called and every upstream state variable stays
    fixed. *)
Theorem downstream_failure_keeps_hold (name : string) (ext : collaborators)
    (w : world) (e : exn) :
  get_solver_outcome ext = None ->
  properties_in_initialize_outcome ext = None ->
  properties_out_initialize_outcome ext = Some e ->
  initialize_build name ext w
  = (Raise e,
     {| fixed_in := map (fun p => (fst p, true)) (fixed_in w);
        trace := trace w ++ [EvGetSolver; EvInitializeIn true; EvInitializeOut] |})
  /\ all_fixed (fixed_in (snd (initialize_build name ext w))) = true.
Proof.
  intros Hs Hi Ho. run_init. rewrite Hs, Hi, Ho. simpl.
  rewrite <- !app_assoc. simpl. split; [reflexivity | apply all_fixed_hold].
Qed.

Lemma downstream_failure_keeps_hold_witness :
  all_fixed (fixed_in (snd (initialize_build "fs.translator"
                              Samples.ext_out_fails Samples.w0))) = true.
Proof.
  exact (proj2 (downstream_failure_keeps_hold "fs.translator" Samples.ext_out_fails
                  Samples.w0 _ eq_refl eq_refl eq_refl)).
Defined.

End TranslatorInitExtra.

(* ================================================================== *)
(** * More on [build] *)
(* ================================================================== *)

Module TranslatorBuildExtra.
Import Pyomo Translator PyomoFacts TranslatorBuildFacts.
Local Open Scope R_scope.
Local Open Scope string_scope.
Local Open Scope list_scope.

Lemma construct_indexed_keys {A} (rule : Z -> result A) (idx : list Z)
    (l : list (Z * A)) :
  construct_indexed rule idx = Ok l -> map fst l = idx.
Proof.
  revert l. induction idx as [|t idx IH]; intros l H; simpl in H.
  - inversion H. reflexivity.
  - destruct (rule t) as [a|]; simpl in H; [|discriminate].
    destruct (construct_indexed rule idx) as [l0|]; simpl in H; [|discriminate].
    inversion H. simpl. rewrite (IH l0 eq_refl). reflexivity.
Qed.

(** X5.  A successful [build] declares every indexed component over the
    time set itself: each of the four expressions and six constraints has
    one entry per time point, in the order of the set. *)
Theorem components_are_indexed_by_time (pu : property_units) (st : valuation)
    (time : list Z) (blk : block) :
  build pu st time = Ok blk ->
  map fst (solvent_mass_flow blk) = time
  /\ map fst (eq_flow_mass_rule blk) = time
  /\ map fst (aluminum_molar_flow blk) = time
  /\ map fst (eq_aluminum_molality blk) = time
  /\ map fst (calcium_molar_flow blk) = time
  /\ map fst (eq_calcium_molality blk) = time
  /\ map fst (iron_molar_flow blk) = time
  /\ map fst (eq_iron_molality blk) = time
  /\ map fst (eq_hydrogen_molality blk) = time
  /\ map fst (eq_hydroxide_molality blk) = time.
Proof.
  intros Hb.
  destruct (build_inv pu st time blk Hb)
    as (H1 & H2 & H3 & H4 & H5 & H6 & H7 & H8 & H9 & H10).
  repeat split; eapply construct_indexed_keys; eassumption.
Qed.

Lemma components_are_indexed_by_time_witness :
  exists blk,
    build Samples.pu_Ls_kgs Samples.st_example [0%Z] = Ok blk
    /\ map fst (eq_aluminum_molality blk) = [0%Z]
    /\ map fst (eq_hydroxide_molality blk) = [0%Z].
Proof.
  destruct sample_build_succeeds as [blk Hb]. exists blk.
  destruct (components_are_indexed_by_time _ _ _ _ Hb)
    as (_ & _ & _ & H4 & _ & _ & _ & _ & _ & H10).
  split; [exact Hb|]. split; [exact H4 | exact H10].
Defined.

(** ** What a build that returns needed *)

(** X6.  A build that returns had, at every time point, a value on the
    upstream [flow_vol] and on each of the three species flows, none of
    them zero: an unset value or a flow of zero makes [build] raise. *)
Theorem build_needs_nonzero_flows (pu : property_units) (st : valuation)
    (time : list Z) (blk : block) (t : Z) :
  build pu st time = Ok blk -> In t time ->
  exists fv,
    st (var_in_flow_vol t) = Some fv /\ fv <> 0
    /\ forall j, In j ["Al"; "Ca"; "Fe"] ->
         exists fm, st (var_in_flow_mass t j) = Some fm /\ fm <> 0.
Proof.
  intros Hb Ht.
  destruct (build_inv pu st time blk Hb)
    as (Hsmf & _ & Hal & Heal & Hca & Heca & Hfe & Hefe & _).
  assert (Hsp : forall j ion fname mw mfl tbl, 0 < mw ->
             construct_indexed
               (rule_molar_flow pu j (Div (Mul (Num mw) (UnitE u_kg)) (UnitE u_mol)))
               time = Ok mfl ->
             construct_indexed
               (rule_eq_molality pu st ion fname mfl (solvent_mass_flow blk))
               time = Ok tbl ->
             exists fm fv, st (var_in_flow_mass t j) = Some fm
                           /\ st (var_in_flow_vol t) = Some fv
                           /\ fm <> 0 /\ fv <> 0).
  { intros j ion fname mw mfl tbl Hmw Hm Ht'.
    destruct (molality_constraint_of_build pu st time _ mfl tbl ion fname fname j mw t
                ltac:(lra) Ht Hsmf Hm Ht') as (fm & fv & target & H1 & H2 & H3 & _).
    exists fm, fv. split; [exact H1|]. split; [exact H2|].
    apply log10_inv in H3. destruct H3 as [H3 _]. split.
    - intros ->. unfold Rdiv in H3.
      replace (0 * mass_factor pu * / mw * / (fv * vol_factor pu * 1.840))
        with 0 in H3 by ring.
      lra.
    - intros ->. replace (0 * vol_factor pu * 1.840) with 0 in H3 by ring.
      rewrite Rdiv_0_r in H3. lra. }
  destruct (Hsp "Al" "Al^3+" "aluminum_molar_flow" 0.02698154 _ _ ltac:(lra) Hal Heal)
    as (fal & fv & Hfal & Hfv & Hnal & Hnv).
  exists fv. split; [exact Hfv|]. split; [exact Hnv|]. intros j Hj. simpl in Hj.
  destruct Hj as [<-|[<-|[<-|[]]]].
  - exists fal. auto.
  - destruct (Hsp "Ca" "Ca^2+" "calcium_molar_flow" 0.03996259 _ _ ltac:(lra) Hca Heca)
      as (fm & _ & Hfm & _ & Hn & _). exists fm. auto.
  - destruct (Hsp "Fe" "Fe^3+" "iron_molar_flow" 0.05593494 _ _ ltac:(lra) Hfe Hefe)
      as (fm & _ & Hfm & _ & Hn & _). exists fm. auto.
Qed.

Lemma build_needs_nonzero_flows_witness :
  exists blk fv,
    build Samples.pu_Ls_kgs Samples.st_example [0%Z] = Ok blk
    /\ Samples.st_example (var_in_flow_vol 0) = Some fv /\ fv <> 0.
Proof.
  destruct sample_build_succeeds as [blk Hb].
  destruct (build_needs_nonzero_flows Samples.pu_Ls_kgs Samples.st_example
              [0%Z] blk 0%Z Hb (or_introl eq_refl)) as [fv [Hfv [Hn _]]].
  exists blk, fv. split; [exact Hb|]. split; [exact Hfv | exact Hn].
Defined.

(** ** Where [build] stops *)

(** The outcome of a molality rule, read off the valuation. *)
Lemma rule_eq_molality_eval (pu : property_units) (st : valuation)
    (ion fname j : string) (mw : R) (mf smf : list (Z * expr)) (t : Z)
    (a s : expr) :
  mw <> 0 ->
  getitem fname mf t = Ok a ->
  rule_molar_flow pu j (Div (Mul (Num mw) (UnitE u_kg)) (UnitE u_mol)) t = Ok a ->
  getitem "solvent_mass_flow" smf t = Ok s ->
  rule_solvent_mass_flow pu t = Ok s ->
  rule_eq_molality pu st ion fname mf smf t
  = rbind (match st (var_in_flow_mass t j) with
           | Some fm =>
               match st (var_in_flow_vol t) with
               | Some fv => div_value (fm * mass_factor pu / mw)
                                      (fv * vol_factor pu * 1.840)
               | None => Raise no_value
               end
           | None => Raise no_value
           end)
      (fun v => rbind (log10 v) (fun target =>
         Ok (EqC (properties_out_log10_molality_comp pu t ion) (Num target)))).
Proof.
  intros Hmw Ha Hra Hs Hrs. unfold rule_eq_molality, expression_ref.
  rewrite Ha, Hs. simpl.
  rewrite (value_molar_flow pu st j mw t a Hmw Hra).
  destruct (value_solvent_mass_flow pu st t s Hrs) as [-> _].
  destruct (st (var_in_flow_mass t j)) as [fm|]; simpl; [|reflexivity].
  destruct (st (var_in_flow_vol t)) as [fv|]; reflexivity.
Qed.

(** With units of the right dimensions the first rule that can fail is the
    aluminum molality rule at the first time point; when it raises, [build]
    raises the same. *)
Lemma build_stops_at_aluminum (pu : property_units) (st : valuation)
    (t0 : Z) (rest : list Z) (e : exn) :
  dim_eqb (dims (in_flow_vol_units pu)) (dims (u_div u_L u_s)) = true ->
  dim_eqb (dims (in_flow_mass_units pu)) (dims (u_div u_kg u_s)) = true ->
  rbind (match st (var_in_flow_mass t0 "Al") with
         | Some fm =>
             match st (var_in_flow_vol t0) with
             | Some fv => div_value (fm * mass_factor pu / 0.02698154)
                                    (fv * vol_factor pu * 1.840)
             | None => Raise no_value
             end
         | None => Raise no_value
         end) log10 = Raise e ->
  build pu st (t0 :: rest) = Raise e.
Proof.
  intros Hdv Hdm Hfail. unfold build.
  remember (t0 :: rest) as time eqn:Htime.
  assert (Hin : In t0 time) by (rewrite Htime; left; reflexivity).
  destruct (construct_indexed_total (rule_solvent_mass_flow pu) time) as [smf Hsmf].
  { intros t _. unfold rule_solvent_mass_flow.
    destruct (convert_dims_ok (properties_in_flow_vol pu t) _ Hdv) as [c ->].
    simpl. eexists; reflexivity. }
  rewrite Hsmf. simpl.
  destruct (construct_indexed_total (rule_eq_flow_mass_rule pu smf) time) as [efm ->].
  { intros t Ht.
    destruct (construct_indexed_getitem "solvent_mass_flow" _ _ _ t Hsmf Ht)
      as [x [_ Hx]].
    unfold rule_eq_flow_mass_rule, expression_ref. rewrite Hx. simpl.
    eexists; reflexivity. }
  simpl.
  destruct (construct_indexed_total (rule_aluminum_molar_flow pu) time) as [al Hal].
  { intros t _. unfold rule_aluminum_molar_flow, rule_molar_flow.
    destruct (convert_dims_ok (properties_in_flow_mass pu t "Al") _ Hdm) as [c ->].
    simpl. eexists; reflexivity. }
  rewrite Hal. simpl.
  destruct (construct_indexed_getitem "solvent_mass_flow" _ _ _ t0 Hsmf Hin)
    as [s [Hrs Hs]].
  destruct (construct_indexed_getitem "aluminum_molar_flow" _ _ _ t0 Hal Hin)
    as [a [Hra Ha]].
  rewrite Htime. cbn [construct_indexed].
  unfold rule_eq_aluminum_molality.
  rewrite (rule_eq_molality_eval pu st "Al^3+" "aluminum_molar_flow" "Al" 0.02698154
             al smf t0 a s ltac:(lra) Ha Hra Hs Hrs).
  destruct (match st (var_in_flow_mass t0 "Al") with
            | Some fm => _ | None => _ end) as [v|e0]; simpl in *.
  - destruct (log10 v); [discriminate|]. inversion Hfail. reflexivity.
  - inversion Hfail. reflexivity.
Qed.

(** X7.  A volumetric flow of zero at the first time point, the aluminum
    flow holding a value, makes [build] raise [ZeroDivisionError]. *)
Theorem zero_volumetric_flow_raises (pu : property_units) (st : valuation)
    (t0 : Z) (rest : list Z) (fm : R) :
  dim_eqb (dims (in_flow_vol_units pu)) (dims (u_div u_L u_s)) = true ->
  dim_eqb (dims (in_flow_mass_units pu)) (dims (u_div u_kg u_s)) = true ->
  st (var_in_flow_mass t0 "Al") = Some fm ->
  st (var_in_flow_vol t0) = Some 0 ->
  build pu st (t0 :: rest) = Raise ZeroDivisionError.
Proof.
  intros Hdv Hdm Hfm Hfv. apply build_stops_at_aluminum; try assumption.
  rewrite Hfm, Hfv. unfold div_value.
  destruct (Req_EM_T (0 * vol_factor pu * 1.840) 0) as [_|Hne]; [reflexivity|].
  exfalso. apply Hne. ring.
Qed.

Lemma zero_volumetric_flow_raises_witness :
  build Samples.pu_Ls_kgs Samples.st_zero_flow [0%Z; 1%Z] = Raise ZeroDivisionError.
Proof.
  exact (zero_volumetric_flow_raises Samples.pu_Ls_kgs Samples.st_zero_flow
           0%Z [1%Z] 0.001 eq_refl eq_refl eq_refl eq_refl).
Defined.

(** X8.  An aluminum flow or a volumetric flow without a value at the first
    time point makes [build] raise the [ValueError] of [value]. *)
Theorem unset_upstream_value_raises (pu : property_units) (st : valuation)
    (t0 : Z) (rest : list Z) :
  dim_eqb (dims (in_flow_vol_units pu)) (dims (u_div u_L u_s)) = true ->
  dim_eqb (dims (in_flow_mass_units pu)) (dims (u_div u_kg u_s)) = true ->
  st (var_in_flow_mass t0 "Al") = None \/ st (var_in_flow_vol t0) = None ->
  build pu st (t0 :: rest)
  = Raise (ValueError "No value for uninitialized NumericValue object").
Proof.
  intros Hdv Hdm Hnone. apply build_stops_at_aluminum; try assumption.
  destruct (st (var_in_flow_mass t0 "Al")) as [fm|]; [|reflexivity].
  destruct Hnone as [H|H]; [discriminate H|]. rewrite H. reflexivity.
Qed.

Lemma unset_upstream_value_raises_witness :
  build Samples.pu_Ls_kgs Samples.st_unset_flow [0%Z]
  = Raise (ValueError "No value for uninitialized NumericValue object").
Proof.
  exact (unset_upstream_value_raises Samples.pu_Ls_kgs Samples.st_unset_flow
           0%Z [] eq_refl eq_refl (or_intror eq_refl)).
Defined.



(** X10.  On a time set that is not empty, an upstream volumetric flow
    whose units are not a volume per time makes [build] raise
    [InconsistentUnitsError] from its first expression. *)
Theorem flow_vol_of_wrong_dimension_raises (pu : property_units) (st : valuation)
    (t0 : Z) (rest : list Z) :
  dim_eqb (dims (in_flow_vol_units pu)) (dims (u_div u_L u_s)) = false ->
  build pu st (t0 :: rest) = Raise InconsistentUnitsError.
Proof.
  intros Hdv. unfold build. cbn [construct_indexed].
  unfold rule_solvent_mass_flow at 1, convert. simpl get_units. rewrite Hdv.
  reflexivity.
Qed.

Lemma flow_vol_of_wrong_dimension_raises_witness :
  build Samples.pu_bad_flow_vol Samples.st_example [0%Z] = Raise InconsistentUnitsError.
Proof.
  exact (flow_vol_of_wrong_dimension_raises Samples.pu_bad_flow_vol Samples.st_example
           0%Z [] eq_refl).
Defined.

End TranslatorBuildExtra.

(* ================================================================== *)
(** * More on the custom vessel costing *)
(* ================================================================== *)

Module CostingExtra.
Import Pyomo Costing PyomoFacts CostingFacts.
Local Open Scope R_scope.
Local Open Scope string_scope.
Local Open Scope list_scope.

(** ** What a call leaves on a fresh block *)

(** X11.  On a fresh block, whatever the other arguments,
    [cost_custom_vessel] leaves the block it got followed by new
    components whose names are an initial part of the thirteen names in
    source order.  All thirteen are there exactly when the call returns.
    A Constraint without an equation is on the block only when the call
    raised, and then it is the last component: the one whose rule raised. *)
Theorem components_added_are_a_prefix
    (reg : registry) (V w : expr) (material year : string) (n : Z) (blk : block) :
  fresh blk ->
  exists (ext : block) (rest : list string),
    snd (cost_custom_vessel reg V material w n year blk) = blk ++ ext
    /\ map fst ext ++ rest = component_names
    /\ (fst (cost_custom_vessel reg V material w n year blk) = Ok tt <-> rest = [])
    /\ (forall name, In (name, CUnbuilt) ext ->
          fst (cost_custom_vessel reg V material w n year blk) <> Ok tt
          /\ exists before, ext = before ++ [(name, CUnbuilt)]).
Proof.
  intros Hfresh.
  destruct (getattr_units reg ("MUSD_" ++ year)) as [cu|e] eqn:Hcu.
  2: { exists [], component_names.
       unfold cost_custom_vessel, bind, lift. rewrite Hcu. cbn [fst snd].
       rewrite app_nil_r. split; [reflexivity|]. split; [reflexivity|].
       split; [split; intros H; discriminate H|]. intros name []. }
  destruct (capital_cost_per_unit_eq reg V material cu) as [c1|e] eqn:Hc1.
  2: { rewrite (run_capital_rule_raises reg V w material year n blk cu e Hfresh Hcu Hc1).
       cbn [fst snd]. eexists. eexists. split; [reflexivity|].
       split; [reflexivity|]. split; [split; intros H; discriminate H|].
       intros name Hin. split; [discriminate|].
       simpl in Hin. destruct Hin as [H|[H|[H|[]]]]; inversion H; subst name.
       exists [("number_of_units", CParam (IZR n) false);
               ("capital_cost_per_unit", cost_var cu)]. reflexivity. }
  destruct (fixed_operating_cost_per_unit_eq_ok cu) as [rhs2 [_ Hc2]].
  rewrite (run_cost_custom_vessel reg V w material year n blk cu _ _ Hfresh Hcu Hc1 Hc2).
  destruct (variable_operating_cost_per_unit_eq reg w cu) as [c3|e].
  - cbn [fst snd]. eexists. exists []. split; [reflexivity|].
    split; [reflexivity|]. split; [split; reflexivity|].
    intros name Hin. exfalso. unfold capital_part, operating_part in Hin. simpl in Hin.
    repeat (destruct Hin as [H|Hin]; [discriminate H|]). exact Hin.
  - cbn [fst snd]. eexists. eexists. split; [reflexivity|].
    split; [reflexivity|]. split; [split; intros H; discriminate H|].
    intros name Hin. split; [discriminate|].
    unfold capital_part, operating_part in Hin. simpl in Hin.
    repeat (destruct Hin as [H|Hin]; [try discriminate H|]); [|destruct Hin].
    inversion H; subst name.
    exists (capital_part n cu c1 (EqC (VarE (BlockVar "fixed_operating_cost_per_unit") cu)
                                     rhs2)
            ++ firstn 3 (operating_part n cu (EqC (Num 0) (Num 0)))).
    rewrite <- app_assoc. reflexivity.
Qed.

Lemma components_added_are_a_prefix_witness :
  exists (ext : block) (rest : list string),
    snd (Samples.vessel_call "titanium" []) = ext
    /\ map fst ext ++ rest = component_names
    /\ (forall name, In (name, CUnbuilt) ext ->
          exists before, ext = before ++ [(name, CUnbuilt)]).
Proof.
  destruct (components_added_are_a_prefix
              Samples.reg_costing Samples.default_volume_per_unit
              Samples.default_water_injection_rate_per_unit "titanium" "2021" 1 []
              fresh_nil) as (ext & rest & Hext & Hnames & _ & Hlast).
  exists ext, rest. split; [exact Hext|]. split; [exact Hnames|].
  intros name Hin. exact (proj2 (Hlast name Hin)).
Defined.

(** ** A valid call *)

(** X12.  A valid call on a fresh block returns and appends exactly the
    thirteen components in source order.  Six of them are Vars, under the
    names the costing framework looks for and their per-unit companions,
    each declared with initial value 1000, domain [NonNegativeReals] and
    bounds (0, None); the capital and fixed costs carry the currency of the
    cost year, the variable costs that currency per year. *)
Theorem valid_call_declares_thirteen_components
    (reg : registry) (V w : expr) (material year : string) (n : Z)
    (blk : block) (cu uc : units) (mf : R) :
  fresh blk ->
  getattr_units reg ("MUSD_" ++ year) = Ok cu ->
  getattr_units reg "USD_custom" = Ok uc ->
  dict_getitem material_factor_dict material = Ok mf ->
  dim_eqb (dims uc) dim_currency = true ->
  dim_eqb (dims cu) dim_currency = true ->
  0 < scale cu ->
  dim_eqb (dims (get_units V)) dim_volume = true ->
  dim_eqb (dims (get_units w)) dim_volume_rate = true ->
  exists ext,
    cost_custom_vessel reg V material w n year blk = (Ok tt, blk ++ ext)
    /\ map fst ext = component_names
    /\ get_component "number_of_units" ext = Some (CParam (IZR n) false)
    /\ filter (fun p => is_var (snd p)) ext
       = [("capital_cost_per_unit", CVar 1000 cu NonNegativeReals (Some 0, None));
          ("capital_cost", CVar 1000 cu NonNegativeReals (Some 0, None));
          ("fixed_operating_cost_per_unit",
           CVar 1000 cu NonNegativeReals (Some 0, None));
          ("fixed_operating_cost", CVar 1000 cu NonNegativeReals (Some 0, None));
          ("variable_operating_cost_per_unit",
           CVar 1000 (u_div cu u_year) NonNegativeReals (Some 0, None));
          ("variable_operating_cost",
           CVar 1000 (u_div cu u_year) NonNegativeReals (Some 0, None))].
Proof.
  intros Hfresh Hcu Huc Hmf Hduc Hdcu Hs HdV Hdw.
  destruct (valid_call reg V w material year n blk cu uc mf
              Hfresh Hcu Huc Hmf Hduc Hdcu Hs HdV Hdw)
    as (rhs1 & rhs2 & rhs3 & Hrun & _).
  eexists. split; [exact Hrun|]. repeat split; reflexivity.
Qed.

Lemma valid_call_declares_thirteen_components_witness :
  exists ext,
    Samples.vessel_call "carbonsteel" [] = (Ok tt, ext)
    /\ map fst ext = component_names.
Proof.
  destruct (valid_call_declares_thirteen_components
              Samples.reg_costing Samples.default_volume_per_unit
              Samples.default_water_injection_rate_per_unit "carbonsteel" "2021" 1 []
              Samples.MUSD_2021 Samples.USD_custom 1
              fresh_nil sample_MUSD_2021 sample_USD_custom eq_refl eq_refl eq_refl
              sample_scale_pos eq_refl eq_refl) as [ext [Hrun [Hnames _]]].
  exists ext. split; [exact Hrun | exact Hnames].
Defined.

(** X13.  In a valid call the constraint
    [variable_operating_cost_per_unit_eq] has the target 0.00190 times the
    value of the water injection rate, taken from [USD_custom] per gallon
    times the units of the rate to the currency of the cost year per year.
    A rate of a times the value, in the same units, gives a times the
    target. *)
Theorem variable_operating_cost_per_unit_is_linear
    (reg : registry) (V w : expr) (material year : string) (n : Z)
    (blk : block) (cu uc : units) (mf : R) (st : valuation) (wv : R) :
  fresh blk ->
  getattr_units reg ("MUSD_" ++ year) = Ok cu ->
  getattr_units reg "USD_custom" = Ok uc ->
  dict_getitem material_factor_dict material = Ok mf ->
  dim_eqb (dims uc) dim_currency = true ->
  dim_eqb (dims cu) dim_currency = true ->
  0 < scale cu ->
  dim_eqb (dims (get_units V)) dim_volume = true ->
  dim_eqb (dims (get_units w)) dim_volume_rate = true ->
  value st w = Ok wv ->
  let target := fun w0 =>
    constraint_target "variable_operating_cost_per_unit_eq"
      (snd (cost_custom_vessel reg V material w0 n year blk)) st in
  target w = Ok (0.00190 * wv * variable_conversion uc (get_units w) cu)
  /\ forall (w' : expr) (a : R),
       get_units w' = get_units w -> value st w' = Ok (a * wv) ->
       target w' = Ok (a * (0.00190 * wv * variable_conversion uc (get_units w) cu)).
Proof.
  intros Hfresh Hcu Huc Hmf Hduc Hdcu Hs HdV Hdw Hw target.
  assert (Hgen : forall w0 x,
             dim_eqb (dims (get_units w0)) dim_volume_rate = true ->
             value st w0 = Ok x ->
             target w0 = Ok (0.00190 * x * variable_conversion uc (get_units w0) cu)).
  { intros w0 x Hdw0 Hw0.
    destruct (valid_call reg V w0 material year n blk cu uc mf
                Hfresh Hcu Huc Hmf Hduc Hdcu Hs HdV Hdw0)
      as (rhs1 & rhs2 & rhs3 & Hrun & _ & _ & Hv3).
    unfold target, constraint_target. rewrite Hrun. cbn [snd].
    rewrite get_component_app by (apply Hfresh; simpl; tauto).
    simpl. apply Hv3. exact Hw0. }
  split; [apply Hgen; assumption|].
  intros w' a Hu Hw'.
  rewrite (Hgen w' (a * wv)) by (rewrite ?Hu; assumption).
  rewrite Hu. f_equal. ring.
Qed.

Lemma variable_operating_cost_per_unit_is_linear_witness :
  constraint_target "variable_operating_cost_per_unit_eq"
    (snd (Samples.vessel_call "carbonsteel" [])) (fun _ => None)
  = Ok (0.00190 * 1
        * variable_conversion Samples.USD_custom
            (get_units Samples.default_water_injection_rate_per_unit)
            Samples.MUSD_2021).
Proof.
  assert (Hw : value (fun _ => None) Samples.default_water_injection_rate_per_unit = Ok 1).
  { unfold Samples.default_water_injection_rate_per_unit. simpl.
    rewrite pow_value_pos by lra. simpl. rewrite Rpower_1_l.
    rewrite div_value_ok by lra. f_equal. lra. }
  exact (proj1 (variable_operating_cost_per_unit_is_linear
                  Samples.reg_costing Samples.default_volume_per_unit
                  Samples.default_water_injection_rate_per_unit "carbonsteel" "2021" 1 []
                  Samples.MUSD_2021 Samples.USD_custom 1 (fun _ => None) 1
                  fresh_nil sample_MUSD_2021 sample_USD_custom eq_refl eq_refl eq_refl
                  sample_scale_pos eq_refl eq_refl Hw)).
Defined.

(** ** A vessel of no volume *)

Lemma capital_cost_per_unit_eq_at_zero (reg : registry) (V : expr) (material : string)
    (cu uc : units) (mf : R) :
  getattr_units reg "USD_custom" = Ok uc ->
  dict_getitem material_factor_dict material = Ok mf ->
  dim_eqb (dims uc) dim_currency = true ->
  dim_eqb (dims cu) dim_currency = true ->
  dim_eqb (dims (get_units V)) dim_volume = true ->
  exists rhs,
    capital_cost_per_unit_eq reg V material cu
    = Ok (EqC (VarE (BlockVar "capital_cost_per_unit") cu) rhs)
    /\ forall st : valuation, value st V = Ok 0 -> value st rhs = Ok 0.
Proof.
  intros Huc Hmf Hduc Hdcu HdV.
  destruct (capital_cost_per_unit_eq_value reg V material cu uc mf
              Huc Hmf Hduc Hdcu HdV) as [rhs [Hrule _]].
  exists rhs. split; [exact Hrule|]. intros st Hv.
  unfold capital_cost_per_unit_eq in Hrule. rewrite Huc, Hmf in Hrule.
  simpl in Hrule.
  destruct (convert _ cu) as [rhs'|] eqn:Hconv; simpl in Hrule; [|discriminate].
  inversion Hrule; subst rhs'. rewrite (value_convert st _ _ _ Hconv).
  simpl. rewrite Hv. simpl.
  rewrite pow_value_pos by lra. simpl. rewrite Rpower_1_l.
  rewrite div_value_ok by lra. simpl.
  replace (0 / (1000 * 1)) with 0 by (field; lra).
  unfold pow_value.
  destruct (Rlt_dec 0 0) as [H|_]; [lra|]. simpl. f_equal. ring.
Qed.

(** X14.  With a volume of value zero the call still goes past the
    capital-cost rule, and the target of [capital_cost_per_unit_eq] is
    zero: [0 ** 0.6] is 0, no error. *)
Theorem zero_volume_costs_nothing
    (reg : registry) (V w : expr) (material year : string) (n : Z)
    (blk : block) (cu uc : units) (mf : R) (st : valuation) :
  fresh blk ->
  getattr_units reg ("MUSD_" ++ year) = Ok cu ->
  getattr_units reg "USD_custom" = Ok uc ->
  dict_getitem material_factor_dict material = Ok mf ->
  dim_eqb (dims uc) dim_currency = true ->
  dim_eqb (dims cu) dim_currency = true ->
  dim_eqb (dims (get_units V)) dim_volume = true ->
  value st V = Ok 0 ->
  constraint_target "capital_cost_per_unit_eq"
    (snd (cost_custom_vessel reg V material w n year blk)) st = Ok 0.
Proof.
  intros Hfresh Hcu Huc Hmf Hduc Hdcu HdV Hv.
  destruct (capital_cost_per_unit_eq_at_zero reg V material cu uc mf
              Huc Hmf Hduc Hdcu HdV) as [rhs1 [Hc1 Hval]].
  destruct (fixed_operating_cost_per_unit_eq_ok cu) as [rhs2 [_ Hc2]].
  destruct (run_capital_part reg V w material year n blk cu _ _ Hfresh Hcu Hc1 Hc2)
    as [rest Hrun].
  unfold constraint_target. rewrite Hrun.
  rewrite get_component_app by (apply Hfresh; simpl; tauto).
  simpl. apply Hval. exact Hv.
Qed.

Lemma zero_volume_costs_nothing_witness :
  constraint_target "capital_cost_per_unit_eq"
    (snd (cost_custom_vessel Samples.reg_costing Samples.zero_volume "aluminum"
            Samples.default_water_injection_rate_per_unit 1 "2021" []))
    (fun _ => None) = Ok 0.
Proof.
  assert (Hv : value (fun _ => None) Samples.zero_volume = Ok 0).
  { unfold Samples.zero_volume. simpl.
    rewrite pow_value_pos by lra. simpl. rewrite Rpower_1_l. f_equal. lra. }
  exact (zero_volume_costs_nothing
           Samples.reg_costing Samples.zero_volume
           Samples.default_water_injection_rate_per_unit "aluminum" "2021" 1 []
           Samples.MUSD_2021 Samples.USD_custom 2 (fun _ => None)
           fresh_nil sample_MUSD_2021 sample_USD_custom eq_refl eq_refl eq_refl
           eq_refl Hv).
Defined.

(** ** The base currency *)

(** X15.  When [build_global_params] succeeds, the base period is the year
    and, unless the registry has an entry of its own under "MUSD_2021", the
    unit the default cost year resolves to is one million of the base
    currency: the cost Vars are in millions of the base currency. *)
Theorem default_cost_unit_is_a_million_base_currency
    (reg : registry) (gp : global_params) :
  build_global_params reg = Ok gp ->
  lookup_def "MUSD_2021" reg = None ->
  base_period gp = u_year
  /\ getattr_units reg ("MUSD_" ++ "2021")
     = Ok (mkUnit (1000000 * scale (base_currency gp)) (dims (base_currency gp)))
  /\ (scale (base_currency gp) <> 0 ->
      forall cu, getattr_units reg ("MUSD_" ++ "2021") = Ok cu ->
                 conversion_factor cu (base_currency gp) = 1000000).
Proof.
  intros Hgp Hno. unfold build_global_params in Hgp.
  destruct (getattr_units reg "USD_2021") as [u|] eqn:Hu; simpl in Hgp; [|discriminate].
  inversion Hgp; subst gp; clear Hgp. cbn [base_period base_currency].
  assert (Hres : resolve (S (length reg)) reg "USD_2021" = Some u).
  { unfold getattr_units in Hu.
    destruct (resolve (S (length reg)) reg "USD_2021") as [u0|];
      [inversion Hu; reflexivity | discriminate Hu]. }
  assert (Hget : getattr_units reg ("MUSD_" ++ "2021")
                 = Ok (mkUnit (1000000 * scale u) (dims u))).
  { unfold getattr_units.
    change ("MUSD_" ++ "2021")%string with "MUSD_2021".
    assert (Hnone : resolve (S (length reg)) reg "MUSD_2021" = None)
      by (cbn [resolve]; rewrite Hno; reflexivity).
    rewrite Hnone. cbv beta iota. rewrite Hres. reflexivity. }
  split; [reflexivity|]. split; [exact Hget|].
  intros Hnz cu Hcu. rewrite Hget in Hcu. inversion Hcu; subst cu.
  unfold conversion_factor. simpl. field. exact Hnz.
Qed.

Lemma default_cost_unit_is_a_million_base_currency_witness :
  getattr_units Samples.reg_costing ("MUSD_" ++ "2021")
  = Ok (mkUnit (1000000 * scale Samples.USD_2021) (dims Samples.USD_2021)).
Proof.
  exact (proj1 (proj2 (default_cost_unit_is_a_million_base_currency
                         Samples.reg_costing
                         {| base_currency := Samples.USD_2021; base_period := u_year |}
                         eq_refl eq_refl))).
Defined.

(** ** The solution of the six constraints *)

(** X16.  After a valid call the six constraints leave no freedom: a
    valuation that satisfies them all gives [capital_cost_per_unit] the
    power-law target T, [capital_cost] T * n,
    [fixed_operating_cost_per_unit] 0.05 * T * n and so
    [fixed_operating_cost] 0.05 * T * n * n (the number of units enters
    twice), [variable_operating_cost_per_unit] the water target and
    [variable_operating_cost] n times it. *)
Theorem six_constraints_determine_the_costs
    (reg : registry) (V w : expr) (material year : string) (n : Z)
    (blk : block) (cu uc : units) (mf : R) (st : valuation) (v wv : R) :
  fresh blk ->
  getattr_units reg ("MUSD_" ++ year) = Ok cu ->
  getattr_units reg "USD_custom" = Ok uc ->
  dict_getitem material_factor_dict material = Ok mf ->
  dim_eqb (dims uc) dim_currency = true ->
  dim_eqb (dims cu) dim_currency = true ->
  0 < scale cu ->
  dim_eqb (dims (get_units V)) dim_volume = true ->
  dim_eqb (dims (get_units w)) dim_volume_rate = true ->
  value st V = Ok v -> 0 < v ->
  value st w = Ok wv ->
  (forall name, In name constraint_names ->
     constraint_holds name (snd (cost_custom_vessel reg V material w n year blk)) st) ->
  let T := mf * 10000 * Rpower (v / 1000) 0.6
           * capital_conversion uc (get_units V) cu in
  let Tw := 0.00190 * wv * variable_conversion uc (get_units w) cu in
  st (BlockVar "capital_cost_per_unit") = Some T
  /\ st (BlockVar "capital_cost") = Some (T * IZR n)
  /\ st (BlockVar "fixed_operating_cost_per_unit") = Some (0.05 * (T * IZR n))
  /\ st (BlockVar "fixed_operating_cost") = Some (0.05 * (T * IZR n) * IZR n)
  /\ st (BlockVar "variable_operating_cost_per_unit") = Some Tw
  /\ st (BlockVar "variable_operating_cost") = Some (Tw * IZR n).
Proof.
  intros Hfresh Hcu Huc Hmf Hduc Hdcu Hs HdV Hdw Hv Hpos Hw Hall.
  exact (costs_determined reg V w material year n blk cu uc mf st v wv
           Hfresh Hcu Huc Hmf Hduc Hdcu Hs HdV Hdw Hv Hpos Hw Hall).
Qed.

Lemma six_constraints_determine_the_costs_witness :
  Samples.st_solution (BlockVar "fixed_operating_cost")
  = Some (0.05 * (Samples.capital_target_3 * 3) * 3).
Proof.
  assert (HV : value Samples.st_solution Samples.default_volume_per_unit = Ok 1000).
  { unfold Samples.default_volume_per_unit. simpl.
    rewrite pow_value_pos by lra. simpl. rewrite Rpower_1_l. f_equal. lra. }
  assert (HW : value Samples.st_solution Samples.default_water_injection_rate_per_unit
               = Ok 1).
  { unfold Samples.default_water_injection_rate_per_unit. simpl.
    rewrite pow_value_pos by lra. simpl. rewrite Rpower_1_l.
    rewrite div_value_ok by lra. f_equal. lra. }
  assert (Hpos : 0 < 1000) by lra.
  destruct (valid_call Samples.reg_costing Samples.default_volume_per_unit
              Samples.default_water_injection_rate_per_unit "carbonsteel" "2021" 3 []
              Samples.MUSD_2021 Samples.USD_custom 1
              fresh_nil sample_MUSD_2021 sample_USD_custom eq_refl eq_refl eq_refl
              sample_scale_pos eq_refl eq_refl)
    as (rhs1 & rhs2 & rhs3 & Hrun & Hv1 & Hv2 & Hv3).
  assert (Hall : forall name, In name constraint_names ->
            constraint_holds name
              (snd (cost_custom_vessel Samples.reg_costing Samples.default_volume_per_unit
                      "carbonsteel" Samples.default_water_injection_rate_per_unit
                      3 "2021" [])) Samples.st_solution).
  { intros name Hname. unfold constraint_holds. rewrite Hrun. cbn [snd app].
    simpl in Hname.
    destruct Hname as [<-|[<-|[<-|[<-|[<-|[<-|[]]]]]]];
      (eexists; split; [reflexivity|]); unfold holds.
    - exists Samples.capital_target_3. split; [reflexivity|].
      apply (Hv1 Samples.st_solution 1000 HV Hpos).
    - exists (Samples.capital_target_3 * 3). split; reflexivity.
    - exists (0.05 * (Samples.capital_target_3 * 3)). split; [reflexivity|].
      apply Hv2. reflexivity.
    - exists (0.05 * (Samples.capital_target_3 * 3) * 3). split; reflexivity.
    - exists Samples.variable_target_3. split; [reflexivity|].
      apply (Hv3 Samples.st_solution 1 HW).
    - exists (Samples.variable_target_3 * 3). split; reflexivity. }
  exact (proj1 (proj2 (proj2 (proj2
           (six_constraints_determine_the_costs
              Samples.reg_costing Samples.default_volume_per_unit
              Samples.default_water_injection_rate_per_unit "carbonsteel" "2021" 3 []
              Samples.MUSD_2021 Samples.USD_custom 1 Samples.st_solution 1000 1
              fresh_nil sample_MUSD_2021 sample_USD_custom eq_refl eq_refl eq_refl
              sample_scale_pos eq_refl eq_refl HV Hpos HW Hall))))).
Defined.

End CostingExtra.
